(** * The DLWP-CS tutorial notebooks

    The repository holds two Jupyter notebooks,
    [Tutorials/1 - Downloading and processing ERA5.ipynb] and
    [Tutorials/3 - Training a DLWP-CS model.ipynb].  This development embeds

    - the functions and list constructions the training notebook defines
      ([unet2], [complete_model], [input_names], [inputs]) as Rocq functions
      over an error monad, with every Keras layer call left to a library
      oracle that may return a tensor or raise;
    - the code cells of both notebooks as Python abstract syntax, for the
      statements that are about which constructs the notebooks contain. *)

From Stdlib Require Import ZArith List String Ascii Bool Lia DecimalString.
From Stdlib Require DecimalZ FinFun.
Import ListNotations.
Set Warnings "-register-all".
Local Open Scope string_scope.
Local Open Scope list_scope.
Local Open Scope Z_scope.

(** ** Python exceptions and results *)

(** The exceptions the embedded code can meet: those Python raises itself for
    a list index out of range, a missing key, an unbound name and a
    subscript on a value that has none, and whatever a library call raises. *)
Inductive exn : Type :=
| IndexError
| KeyError (key : string)
| NameError (name : string)
| TypeError
| LibraryError (what : string).

Inductive result (A : Type) : Type :=
| Ok (a : A)
| Raised (e : exn).
Arguments Ok {A} a.
Arguments Raised {A} e.

Definition bind {A B : Type} (c : result A) (k : A -> result B) : result B :=
  match c with
  | Ok a => k a
  | Raised e => Raised e
  end.

Notation "x <- c ;; k" := (bind c (fun x => k))
  (at level 61, c at next level, right associativity).
Notation "' p <- c ;; k" := (bind c (fun x => match x with p => k end))
  (at level 61, p pattern, c at next level, right associativity).

(** [for x in items: st = body(st, x)], stopping at the first exception. *)
Fixpoint for_each {S X : Type} (items : list X) (body : S -> X -> result S) (st : S)
  : result S :=
  match items with
  | [] => Ok st
  | x :: rest => st' <- body st x ;; for_each rest body st'
  end.

(** [[f(x) for x in items]], stopping at the first exception. *)
Fixpoint list_comp {X Y : Type} (f : X -> result Y) (items : list X) : result (list Y) :=
  match items with
  | [] => Ok []
  | x :: rest => y <- f x ;; ys <- list_comp f rest ;; Ok (y :: ys)
  end.

(** ** Python built-ins used by the notebook *)

(** [range(start, stop)]: empty when [stop <= start]. *)
Definition py_range (start stop : Z) : list Z :=
  map (fun k => start + Z.of_nat k) (seq 0 (Z.to_nat (stop - start))).

(** [l[i]]: a negative index counts from the end, an index out of range raises
    [IndexError]. *)
Definition py_getitem {A : Type} (l : list A) (i : Z) : result A :=
  let n := Z.of_nat (List.length l) in
  let j := if i <? 0 then i + n else i in
  if (0 <=? j) && (j <? n) then
    match nth_error l (Z.to_nat j) with
    | Some a => Ok a
    | None => Raised IndexError
    end
  else Raised IndexError.

(** ['%d' % i]: the decimal digits of [i], with a minus sign when negative. *)
Definition percent_d (i : Z) : string := NilEmpty.string_of_int (Z.to_int i).

(** ['solar_%d' % i] *)
Definition solar_name (i : Z) : string := String.append "solar_" (percent_d i).

(** ** Parameters of the training notebook *)

(** The user-selected values and the two shapes read from the data generator
    that the model construction depends on. *)
Record Settings : Type := {
  integration_steps : Z;
  add_solar : bool;
  io_time_steps : Z;
  cs : list Z;                 (* generator.convolution_shape *)
  insolation_shape : list Z    (* generator.insolation_shape *)
}.

Definition cnn_model_name : string := "unet2".

(** The values the notebook sets.  The two shapes are read from the data
    generator when the notebook runs; the ones here stand for a cubed sphere
    of 6 faces of 48x48 points. *)
Definition tutorial : Settings := {|
  integration_steps := 2;
  add_solar := true;
  io_time_steps := 2;
  cs := [6; 48; 48; 6];
  insolation_shape := [2; 6; 48; 48; 1]
|}.

(** [input_solar = (integration_steps > 1 and add_solar)] *)
Definition input_solar (s : Settings) : bool :=
  (1 <? integration_steps s) && add_solar s.

(** [input_names = ['main_input'] + ['solar_%d' % i for i in range(1, integration_steps)]] *)
Definition input_names (s : Settings) : list string :=
  ["main_input"] ++ map solar_name (py_range 1 (integration_steps s)).

(** ** Keras layers *)

(** The layer objects the notebook creates once, outside the model function,
    and the layers and functions it calls with their arguments in place. *)
Inductive Layer : Type :=
| cube_padding_1 | pooling_2 | up_sampling_2 | relu
| conv_2d_1 | conv_2d_1_2 | conv_2d_1_3
| conv_2d_2 | conv_2d_2_2 | conv_2d_2_3
| conv_2d_3 | conv_2d_3_2
| conv_2d_4 | conv_2d_4_2
| conv_2d_5 | conv_2d_5_2 | conv_2d_5_3
| conv_2d_6 | conv_2d_6_2 | conv_2d_6_3
| conv_2d_7 | conv_2d_7_2 | conv_2d_7_3
| conv_2d_8
| Input (shape : list Z) (name : string)
| concatenate (axis : Z)
| Reshape (target_shape : list Z)
| Concatenate (axis : Z)
| Permute (dims : list Z).

(** What [complete_model] and [Model] receive: one tensor, or a list (or
    tuple) of tensors. *)
Inductive PyArg (Tensor : Type) : Type :=
| Single (t : Tensor)
| Sequence (ts : list Tensor).
Arguments Single {Tensor} t.
Arguments Sequence {Tensor} ts.

Section Training.

Context {Tensor : Type}.

(** The library: calling a layer on its input tensors returns a tensor or
    raises. *)
Variable call : Layer -> list Tensor -> result Tensor.

(** [layer(x)] *)
Definition app (layer : Layer) (x : Tensor) : result Tensor := call layer [x].

(** [outer(inner(x))] *)
Definition app2 (outer inner : Layer) (x : Tensor) : result Tensor :=
  t <- app inner x ;; app outer t.

Definition unet2 (x : Tensor) : result Tensor :=
  x0 <- app cube_padding_1 x ;;
  x0 <- app2 relu conv_2d_1 x0 ;;
  x0 <- app cube_padding_1 x0 ;;
  x0 <- app2 relu conv_2d_1_2 x0 ;;
  x1 <- app pooling_2 x0 ;;
  x1 <- app cube_padding_1 x1 ;;
  x1 <- app2 relu conv_2d_2 x1 ;;
  x1 <- app cube_padding_1 x1 ;;
  x1 <- app2 relu conv_2d_2_2 x1 ;;
  x2 <- app pooling_2 x1 ;;
  x2 <- app cube_padding_1 x2 ;;
  x2 <- app2 relu conv_2d_5_2 x2 ;;
  x2 <- app cube_padding_1 x2 ;;
  x2 <- app2 relu conv_2d_5 x2 ;;
  x2 <- app up_sampling_2 x2 ;;
  x <- call (concatenate (-1)) [x2; x1] ;;
  x <- app cube_padding_1 x ;;
  x <- app2 relu conv_2d_6_2 x ;;
  x <- app cube_padding_1 x ;;
  x <- app2 relu conv_2d_6 x ;;
  x <- app up_sampling_2 x ;;
  x <- call (concatenate (-1)) [x; x0] ;;
  x <- app cube_padding_1 x ;;
  x <- app2 relu conv_2d_7 x ;;
  x <- app cube_padding_1 x ;;
  x <- app2 relu conv_2d_7_2 x ;;
  x <- app conv_2d_8 x ;;
  Ok x.

(** [globals()[name]], for the names bound to a function from a tensor to a
    tensor: the notebook defines one, [unet2]. *)
Definition globals (name : string) : result (Tensor -> result Tensor) :=
  if String.eqb name "unet2" then Ok unet2 else Raised (KeyError name).

(** [isinstance(x_in, (list, tuple))] *)
Definition is_sequence (x_in : PyArg Tensor) : bool :=
  match x_in with
  | Sequence _ => true
  | Single _ => false
  end.

(** [x_in[i]] for a list or tuple [x_in]. *)
Definition arg_getitem (x_in : PyArg Tensor) (i : Z) : result Tensor :=
  match x_in with
  | Sequence ts => py_getitem ts i
  | Single _ => Raised TypeError
  end.

(** [xi = x_in[0] if is_seq else x_in] *)
Definition first_input (x_in : PyArg Tensor) : result Tensor :=
  match x_in with
  | Sequence ts => py_getitem ts 0
  | Single t => Ok t
  end.

(** The body of [if is_seq and input_solar:], which appends the insolation
    of [step] to the previous output; without it the previous output is
    passed on as it is. *)
Definition next_input (s : Settings) (x_in : PyArg Tensor) (step : Z) (xo : Tensor)
  : result Tensor :=
  if is_sequence x_in && input_solar s then
    xo <- call (Reshape (removelast (cs s) ++ [io_time_steps s; -1])) [xo] ;;
    sol <- arg_getitem x_in step ;;
    sol <- call (Permute [2; 3; 4; 1; 5]) [sol] ;;
    xo <- call (Concatenate (-1)) [xo; sol] ;;
    call (Reshape (cs s)) [xo]
  else Ok xo.

(** One pass of [for step in range(1, integration_steps):] *)
Definition integration_step (s : Settings) (x_in : PyArg Tensor)
    (model_function : Tensor -> result Tensor) (outputs : list Tensor) (step : Z)
  : result (list Tensor) :=
  xo <- py_getitem outputs (step - 1) ;;
  xo <- next_input s x_in step xo ;;
  y <- model_function xo ;;
  Ok (outputs ++ [y]).

Definition complete_model (s : Settings) (x_in : PyArg Tensor) : result (list Tensor) :=
  let outputs := [] in
  model_function <- globals cnn_model_name ;;
  xi <- first_input x_in ;;
  y <- model_function xi ;;
  let outputs := outputs ++ [y] in
  for_each (py_range 1 (integration_steps s))
           (integration_step s x_in model_function) outputs.

(** [main_input = Input(shape=cs, name='main_input')] *)
Definition main_input (s : Settings) : result Tensor :=
  call (Input (cs s) "main_input") [].

(** [solar_inputs = [Input(shape=generator.insolation_shape, name='solar_%d' % d)
                     for d in range(1, integration_steps)]] *)
Definition solar_inputs (s : Settings) : result (list Tensor) :=
  list_comp (fun d => call (Input (insolation_shape s) (solar_name d)) [])
            (py_range 1 (integration_steps s)).

(** The cell that defines the layers: [main_input] always, [solar_inputs]
    only under [if input_solar:]. *)
Definition input_layers (s : Settings) : result (Tensor * option (list Tensor)) :=
  main <- main_input s ;;
  if input_solar s then
    solar <- solar_inputs s ;;
    Ok (main, Some solar)
  else Ok (main, None).

(** The [inputs] the notebook passes to [Model]:
    [if not input_solar: inputs = main_input
     else: inputs = [main_input]; if input_solar: inputs = inputs + solar_inputs] *)
Definition inputs (s : Settings) : result (PyArg Tensor) :=
  '(main, solar) <- input_layers s ;;
  if negb (input_solar s) then Ok (Single main)
  else
    let inputs := [main] in
    if input_solar s then
      match solar with
      | Some solar => Ok (Sequence (inputs ++ solar))
      | None => Raised (NameError "solar_inputs")
      end
    else Ok (Sequence inputs).

(** [Model(inputs=inputs, outputs=complete_model(inputs))]: the two
    arguments the model is built from. *)
Definition model_arguments (s : Settings) : result (PyArg Tensor * list Tensor) :=
  ins <- inputs s ;;
  outs <- complete_model s ins ;;
  Ok (ins, outs).

(** What [x_in[step]] needs when the loop reads it. *)
Definition readable (s : Settings) (x_in : PyArg Tensor) (step : Z) : Prop :=
  is_sequence x_in && input_solar s = true -> exists t, arg_getitem x_in step = Ok t.

(** The outputs at the positions [1 .. n-1] were each computed from the one
    before. *)
Definition fed_back (s : Settings) (x_in : PyArg Tensor) (outputs : list Tensor) (n : nat)
  : Prop :=
  forall k, (S k < n)%nat ->
    exists prev xo y,
      nth_error outputs k = Some prev
      /\ next_input s x_in (Z.of_nat (S k)) prev = Ok xo
      /\ unet2 xo = Ok y
      /\ nth_error outputs (S k) = Some y.

End Training.

(** ** Keras tensors as the functional API builds them

    Calling a layer on symbolic tensors records the call: the resulting
    tensor is the node of the layer with its inbound tensors. *)
Inductive KerasTensor : Type :=
| Node (layer : Layer) (inbound : list KerasTensor).

(** A library in which every layer call returns. *)
Definition keras (layer : Layer) (inbound : list KerasTensor) : result KerasTensor :=
  Ok (Node layer inbound).

(** A library in which the output convolution rejects its input. *)
Definition keras_rejecting_output (layer : Layer) (inbound : list KerasTensor)
  : result KerasTensor :=
  match layer with
  | conv_2d_8 => Raised (LibraryError "ValueError")
  | _ => Ok (Node layer inbound)
  end.

(** A placeholder tensor, as [Input(shape=shape, name=name)] returns it. *)
Definition placeholder (shape : list Z) (name : string) : KerasTensor :=
  Node (Input shape name) [].

(** * The notebooks' code cells as Python abstract syntax

    The node types are those of Python's [ast] module, for the statements and
    expressions a notebook cell can hold; a comprehension has one generator,
    a function definition plain positional parameters. *)

Module Py.

Inductive constant : Type :=
| CNone
| CBool (b : bool)
| CInt (n : Z)
| CFloat (literal : string)
| CStr (s : string).

Inductive boolop : Type := And | Or.
Inductive operator : Type := Add | Sub | Mult | Div | FloorDiv | Mod | Pow.
Inductive unaryop : Type := Not | USub | UAdd | Invert.
Inductive cmpop : Type :=
| CEq | CNotEq | CLt | CLtE | CGt | CGtE | CIs | CIsNot | CIn | CNotIn.

Inductive expr : Type :=
| BoolOp (op : boolop) (values : list expr)
| BinOp (lhs : expr) (op : operator) (rhs : expr)
| UnaryOp (op : unaryop) (operand : expr)
| Lambda (params : list string) (body : expr)
| IfExp (test body orelse : expr)
| DictE (keys values : list expr)
| ListComp (elt target iter : expr) (ifs : list expr)
| Await (value : expr)
| Compare (lhs : expr) (ops : list cmpop) (comparators : list expr)
| Call (func : expr) (args : list expr) (keywords : list (option string * expr))
| Constant (value : constant)
| Attribute (value : expr) (attr : string)
| Subscript (value slice : expr)
| Starred (value : expr)
| Name (id : string)
| ListE (elts : list expr)
| TupleE (elts : list expr)
| Slice (lower upper step : option expr).

Inductive stmt : Type :=
| FunctionDef (name : string) (params : list string) (body : list stmt)
| AsyncFunctionDef (name : string) (params : list string) (body : list stmt)
| ClassDef (name : string) (bases : list expr) (body : list stmt)
| Return (value : option expr)
| Assign (targets : list expr) (value : expr)
| AugAssign (target : expr) (op : operator) (value : expr)
| For (target iter : expr) (body orelse : list stmt)
| While (test : expr) (body orelse : list stmt)
| If (test : expr) (body orelse : list stmt)
| With (items : list expr) (body : list stmt)
| Raise (exc : option expr)
| Try (body : list stmt) (handlers : list (option expr * list stmt))
      (orelse finalbody : list stmt)
| Assert (test : expr)
| Import (names : list (string * option string))
| ImportFrom (module : string) (names : list (string * option string))
| Expr (value : expr)
| Pass
(* An IPython line magic, [%name line]: a command to the IPython kernel. *)
| LineMagic (name line : string).

(** A keyword argument [k=v], and a dictionary unpacked into keyword
    arguments, [**v]. *)
Definition kw (k : string) (v : expr) : option string * expr := (Some k, v).
Definition kwargs (v : expr) : option string * expr := (None, v).

(** The literals ['s'], [n] and a float as written. *)
Definition Str (s : string) : expr := Constant (CStr s).
Definition Int (n : Z) : expr := Constant (CInt n).
Definition Float (literal : string) : expr := Constant (CFloat literal).
Definition Boolean (b : bool) : expr := Constant (CBool b).
Definition NoneLit : expr := Constant CNone.

(** The line feed that ['\n'] stands for in a Python string. *)
Definition nl : string := String (ascii_of_nat 10) EmptyString.

Definition of_option {A : Type} (o : option A) : list A :=
  match o with
  | Some a => [a]
  | None => []
  end.

Fixpoint interleave {A : Type} (xs ys : list A) : list A :=
  match xs, ys with
  | x :: xs', y :: ys' => x :: y :: interleave xs' ys'
  | _, _ => xs ++ ys
  end.

(** The operands of an expression node, in the order Python evaluates
    them. *)
Definition operands (e : expr) : list expr :=
  match e with
  | BoolOp _ values => values
  | BinOp lhs _ rhs => [lhs; rhs]
  | UnaryOp _ operand => [operand]
  | Lambda _ body => [body]
  | IfExp test body orelse => [test; body; orelse]
  | DictE keys values => interleave keys values
  | ListComp elt target iter ifs => iter :: target :: ifs ++ [elt]
  | Await value => [value]
  | Compare lhs _ comparators => lhs :: comparators
  | Call func args keywords => func :: args ++ map snd keywords
  | Constant _ => []
  | Attribute value _ => [value]
  | Subscript value slice => [value; slice]
  | Starred value => [value]
  | Name _ => []
  | ListE elts => elts
  | TupleE elts => elts
  | Slice lower upper step => of_option lower ++ of_option upper ++ of_option step
  end.

(** Every node of an expression, the expression itself first. *)
Fixpoint nodes (e : expr) : list expr :=
  e ::
  match e with
  | BoolOp _ values => flat_map nodes values
  | BinOp lhs _ rhs => nodes lhs ++ nodes rhs
  | UnaryOp _ operand => nodes operand
  | Lambda _ body => nodes body
  | IfExp test body orelse => nodes test ++ nodes body ++ nodes orelse
  | DictE keys values => flat_map nodes keys ++ flat_map nodes values
  | ListComp elt target iter ifs =>
      nodes iter ++ nodes target ++ flat_map nodes ifs ++ nodes elt
  | Await value => nodes value
  | Compare lhs _ comparators => nodes lhs ++ flat_map nodes comparators
  | Call func args keywords =>
      nodes func ++ flat_map nodes args ++ flat_map (fun k => nodes (snd k)) keywords
  | Constant _ => []
  | Attribute value _ => nodes value
  | Subscript value slice => nodes value ++ nodes slice
  | Starred value => nodes value
  | Name _ => []
  | ListE elts => flat_map nodes elts
  | TupleE elts => flat_map nodes elts
  | Slice lower upper step =>
      let opt o := match o with Some x => nodes x | None => [] end in
      opt lower ++ opt upper ++ opt step
  end.

(** The expressions a statement evaluates itself, the statements nested in
    it apart. *)
Definition own_exprs (s : stmt) : list expr :=
  match s with
  | FunctionDef _ _ _ | AsyncFunctionDef _ _ _ => []
  | ClassDef _ bases _ => bases
  | Return value => of_option value
  | Assign targets value => value :: targets
  | AugAssign target _ value => [target; value]
  | For target iter _ _ => [iter; target]
  | While test _ _ => [test]
  | If test _ _ => [test]
  | With items _ => items
  | Raise exc => of_option exc
  | Try _ handlers _ _ => flat_map (fun h => of_option (fst h)) handlers
  | Assert test => [test]
  | Import _ | ImportFrom _ _ | Pass | LineMagic _ _ => []
  | Expr value => [value]
  end.

(** Every statement of a statement, itself first, then those nested in it. *)
Fixpoint statements (s : stmt) : list stmt :=
  s ::
  match s with
  | FunctionDef _ _ body | AsyncFunctionDef _ _ body | ClassDef _ _ body
  | With _ body => flat_map statements body
  | For _ _ body orelse | While _ body orelse | If _ body orelse =>
      flat_map statements body ++ flat_map statements orelse
  | Try body handlers orelse finalbody =>
      flat_map statements body
      ++ flat_map (fun h => flat_map statements (snd h)) handlers
      ++ flat_map statements orelse ++ flat_map statements finalbody
  | _ => []
  end.

(** All statements and all expression nodes of a cell. *)
Definition cell_statements (cell : list stmt) : list stmt := flat_map statements cell.
Definition cell_exprs (cell : list stmt) : list expr :=
  flat_map nodes (flat_map own_exprs (cell_statements cell)).

End Py.
Import Py.

(** ** Notebook 1: downloading and processing ERA5 *)

(** Code cell 1, which starts [%conda install -c conda-forge cdsapi] *)
Definition download_cell_1 : list stmt := [
  LineMagic "conda" "install -c conda-forge cdsapi"].

(** Code cell 2, which starts [variables = ['geopotential', '2m_temperature']] *)
Definition download_cell_2 : list stmt := [
  Assign [Name "variables"] (ListE [Str "geopotential"; Str "2m_temperature"]);
  Assign [Name "levels"] (ListE [Int 500]);
  Assign [Name "years"] (Call (Name "list") [Call (Name "range") [Int 2013; Int 2019] []] [])].

(** Code cell 3, which starts [import os] *)
Definition download_cell_3 : list stmt := [
  Import [("os", None)];
  Expr (Call (Attribute (Name "os") "chdir") [Attribute (Name "os") "pardir"] []);
  ImportFrom "DLWP.data" [("ERA5Reanalysis", None)];
  Assign [Name "data_directory"] (Str "/home/disk/wave2/jweyn/Data/ERA5");
  Expr (Call (Attribute (Name "os") "makedirs") [Name "data_directory"] [kw "exist_ok" (Boolean
      true)]);
  Assign [Name "era"] (Call (Name "ERA5Reanalysis") [] [kw "root_directory" (Name
      "data_directory"); kw "file_id" (Str "tutorial")]);
  Expr (Call (Attribute (Name "era") "set_variables") [Name "variables"] []);
  Expr (Call (Attribute (Name "era") "set_levels") [Name "levels"] [])].

(** Code cell 4, which starts [era.retrieve(variables, levels, years=years, hourly=3,] *)
Definition download_cell_4 : list stmt := [
  Expr (Call (Attribute (Name "era") "retrieve") [Name "variables";
      Name "levels"] [kw "years" (Name "years"); kw "hourly" (Int 3);
      kw "request_kwargs" (DictE [Str "grid"] [ListE [Float "2."; Float "2."]]);
      kw "verbose" (Boolean true); kw "delete_temporary" (Boolean true)])].

(** Code cell 5, which starts [era.open()] *)
Definition download_cell_5 : list stmt := [
  Expr (Call (Attribute (Name "era") "open") [] []);
  Expr (Call (Name "print") [Attribute (Name "era") "Dataset"] [])].

(** Code cell 6, which starts [import pandas as pd] *)
Definition download_cell_6 : list stmt := [
  Import [("pandas", (Some "pd"))];
  ImportFrom "DLWP.data.era5" [("get_short_name", None)];
  Assign [Name "dates"] (Call (Name "list") [Call (Attribute (Call (Attribute (Name "pd")
      "date_range") [Str "2013-01-01";
      Str "2018-12-31"] [kw "freq" (Str "D")]) "to_pydatetime") [] []] []);
  Assign [Name "variables"] (Call (Name "get_short_name") [Name "variables"] []);
  Assign [Name "levels"] (ListE [Int 500; Int 0]);
  Assign [Name "processed_file"] (BinOp (Str "%s/tutorial_z500_t2m.nc") Mod (Name
      "data_directory"))].

(** Code cell 7, which starts [from DLWP.model import Preprocessor] *)
Definition download_cell_7 : list stmt := [
  ImportFrom "DLWP.model" [("Preprocessor", None)];
  Assign [Name "pp"] (Call (Name "Preprocessor") [Name "era"] [kw "predictor_file" (Name
      "processed_file")]);
  Expr (Call (Attribute (Name "pp") "data_to_series") [] [kw "batch_samples" (Int 10000);
      kw "variables" (Name "variables"); kw "levels" (Name "levels");
      kw "pairwise" (Boolean true); kw "scale_variables" (Boolean true);
      kw "overwrite" (Boolean true); kw "verbose" (Boolean true)])].

(** Code cell 8, which starts [print(pp.data)] *)
Definition download_cell_8 : list stmt := [
  Expr (Call (Name "print") [Attribute (Name "pp") "data"] []);
  Expr (Call (Attribute (Call (Attribute (Attribute (Name "pp") "data") "drop") [Str "varlev"]
      []) "to_netcdf") [BinOp (Name "processed_file") Add (Str ".nocoord")] []);
  Expr (Call (Attribute (Name "era") "close") [] []);
  Expr (Call (Attribute (Name "pp") "close") [] [])].

Definition download_notebook : list (list stmt) :=
  [download_cell_1;
   download_cell_2;
   download_cell_3;
   download_cell_4;
   download_cell_5;
   download_cell_6;
   download_cell_7;
   download_cell_8].

(** ** Notebook 3: training a DLWP-CS model *)

(** Code cell 1, which starts [import os] *)
Definition training_cell_1 : list stmt := [
  Import [("os", None)];
  Expr (Call (Attribute (Name "os") "chdir") [Attribute (Name "os") "pardir"] []);
  Assign [Name "root_directory"] (Str "/home/disk/wave2/jweyn/Data");
  Assign [Name "predictor_file"] (Call (Attribute (Attribute (Name "os") "path") "join") [Name
      "root_directory"; Str "ERA5"; Str "tutorial_z500_t2m_CS.nc"] []);
  Assign [Name "model_file"] (Call (Attribute (Attribute (Name "os") "path") "join") [Name
      "root_directory"; Str "dlwp-cs_tutorial"] []);
  Assign [Name "log_directory"] (Call (Attribute (Attribute (Name "os") "path") "join") [Name
      "root_directory"; Str "logs"; Str "dlwp-cs_tutorial"] [])].

(** Code cell 2, which starts [cnn_model_name = 'unet2'] *)
Definition training_cell_2 : list stmt := [
  Assign [Name "cnn_model_name"] (Str "unet2");
  Assign [Name "base_filter_number"] (Int 32);
  Assign [Name "min_epochs"] (Int 0);
  Assign [Name "max_epochs"] (Int 20);
  Assign [Name "patience"] (Int 2);
  Assign [Name "batch_size"] (Int 32);
  Assign [Name "shuffle"] (Boolean true)].

(** Code cell 3, which starts [io_selection = {'varlev': ['z/500', 't2m/0']}] *)
Definition training_cell_3 : list stmt := [
  Assign [Name "io_selection"] (DictE [Str "varlev"] [ListE [Str "z/500"; Str "t2m/0"]]);
  Assign [Name "add_solar"] (Boolean true)].

(** Code cell 4, which starts [io_time_steps = 2] *)
Definition training_cell_4 : list stmt := [
  Assign [Name "io_time_steps"] (Int 2);
  Assign [Name "integration_steps"] (Int 2);
  Assign [Name "data_interval"] (Int 2);
  Assign [Name "loss_by_step"] NoneLit].

(** Code cell 5, which starts [import pandas as pd] *)
Definition training_cell_5 : list stmt := [
  Import [("pandas", (Some "pd"))];
  Assign [Name "train_set"] (Call (Name "list") [Call (Attribute (Name "pd") "date_range") [Str
      "2013-01-01"; Str "2014-12-31 21:00"] [kw "freq" (Str "3H")]] []);
  Assign [Name "validation_set"] (Call (Name "list") [Call (Attribute (Name "pd") "date_range")
      [Str "2015-01-01"; Str "2016-12-31 21:00"] [kw "freq" (Str "3H")]] [])].

(** Code cell 6, which starts [use_mp_optimizer = False] *)
Definition training_cell_6 : list stmt := [
  Assign [Name "use_mp_optimizer"] (Boolean false)].

(** Code cell 7, which starts [from DLWP.model import DLWPFunctional] *)
Definition training_cell_7 : list stmt := [
  ImportFrom "DLWP.model" [("DLWPFunctional", None)];
  Assign [Name "dlwp"] (Call (Name "DLWPFunctional") [] [kw "is_convolutional" (Boolean true);
      kw "time_dim" (Name "io_time_steps")])].

(** Code cell 8, which starts [import xarray as xr] *)
Definition training_cell_8 : list stmt := [
  Import [("xarray", (Some "xr"))];
  Assign [Name "data"] (Call (Attribute (Name "xr") "open_dataset") [Name "predictor_file"] []);
  Assign [Name "train_data"] (Call (Attribute (Name "data") "sel") [] [kw "sample" (Name
      "train_set")]);
  Assign [Name "validation_data"] (Call (Attribute (Name "data") "sel") [] [kw "sample" (Name
      "validation_set")])].

(** Code cell 9, which starts [from DLWP.model.preprocessing import prepare_data_array] *)
Definition training_cell_9 : list stmt := [
  ImportFrom "DLWP.model.preprocessing" [("prepare_data_array", None)];
  ImportFrom "DLWP.model" [("ArrayDataGenerator", None)];
  Expr (Call (Name "print") [Str "Loading data to memory..."] []);
  Assign [TupleE [Name "train_array"; Name "input_ind"; Name "output_ind";
      Name "sol"]] (Call (Name "prepare_data_array") [Name "train_data"] [kw "input_sel" (Name
      "io_selection"); kw "output_sel" (Name "io_selection");
      kw "add_insolation" (Name "add_solar")]);
  Assign [Name "generator"] (Call (Name "ArrayDataGenerator") [Name "dlwp";
      Name "train_array"] [kw "rank" (Int 3); kw "input_slice" (Name "input_ind");
      kw "output_slice" (Name "output_ind"); kw "input_time_steps" (Name "io_time_steps");
      kw "output_time_steps" (Name "io_time_steps"); kw "sequence" (Name "integration_steps");
      kw "interval" (Name "data_interval"); kw "insolation_array" (Name "sol");
      kw "batch_size" (Name "batch_size"); kw "shuffle" (Name "shuffle");
      kw "channels_last" (Boolean true); kw "drop_remainder" (Boolean true)])].

(** Code cell 10, which starts [print('Loading validation data to memory...')] *)
Definition training_cell_10 : list stmt := [
  Expr (Call (Name "print") [Str "Loading validation data to memory..."] []);
  Assign [TupleE [Name "val_array"; Name "input_ind"; Name "output_ind";
      Name "sol"]] (Call (Name "prepare_data_array") [Name "validation_data"] [kw "input_sel"
      (Name "io_selection"); kw "output_sel" (Name "io_selection");
      kw "add_insolation" (Name "add_solar")]);
  Assign [Name "val_generator"] (Call (Name "ArrayDataGenerator") [Name "dlwp";
      Name "val_array"] [kw "rank" (Int 3); kw "input_slice" (Name "input_ind");
      kw "output_slice" (Name "output_ind"); kw "input_time_steps" (Name "io_time_steps");
      kw "output_time_steps" (Name "io_time_steps"); kw "sequence" (Name "integration_steps");
      kw "interval" (Name "data_interval"); kw "insolation_array" (Name "sol");
      kw "batch_size" (Name "batch_size"); kw "shuffle" (Boolean false);
      kw "channels_last" (Boolean true)])].

(** Code cell 11, which starts [from DLWP.model import tf_data_generator] *)
Definition training_cell_11 : list stmt := [
  ImportFrom "DLWP.model" [("tf_data_generator", None)];
  Assign [Name "input_names"] (BinOp (ListE [Str "main_input"]) Add (ListComp (BinOp (Str
      "solar_%d") Mod (Name "i")) (Name "i") (Call (Name "range") [Int 1;
      Name "integration_steps"] []) []));
  Assign [Name "tf_train_data"] (Call (Name "tf_data_generator") [Name "generator"] [kw
      "batch_size" (Name "batch_size"); kw "input_names" (Name "input_names")]);
  Assign [Name "tf_val_data"] (Call (Name "tf_data_generator") [Name "val_generator"] [kw
      "input_names" (Name "input_names")])].

(** Code cell 12, which starts [from tensorflow.keras.layers import Input, UpSampling3D,
    AveragePooling3D, concatenate, ReLU, Reshape, Concatenate, \] *)
Definition training_cell_12 : list stmt := [
  ImportFrom "tensorflow.keras.layers" [("Input", None); ("UpSampling3D", None);
      ("AveragePooling3D", None); ("concatenate", None); ("ReLU", None); ("Reshape", None);
      ("Concatenate", None); ("Permute", None)];
  ImportFrom "DLWP.custom" [("CubeSpherePadding2D", None); ("CubeSphereConv2D", None)];
  Assign [Name "cs"] (Attribute (Name "generator") "convolution_shape");
  Assign [Name "cso"] (Attribute (Name "generator") "output_convolution_shape");
  Assign [Name "input_solar"] (BoolOp And [Compare (Name "integration_steps") [CGt] [Int 1];
      Name "add_solar"]);
  Assign [Name "main_input"] (Call (Name "Input") [] [kw "shape" (Name "cs");
      kw "name" (Str "main_input")]);
  If (Name "input_solar") [
    Assign [Name "solar_inputs"] (ListComp (Call (Name "Input") [] [kw "shape" (Attribute (Name
        "generator") "insolation_shape");
        kw "name" (BinOp (Str "solar_%d") Mod (Name "d"))]) (Name "d") (Call (Name "range") [Int
        1; Name "integration_steps"] []) [])] [];
  Assign [Name "cube_padding_1"] (Call (Name "CubeSpherePadding2D") [Int 1] [kw "data_format"
      (Str "channels_last")]);
  Assign [Name "pooling_2"] (Call (Name "AveragePooling3D") [TupleE [Int 1; Int 2;
      Int 2]] [kw "data_format" (Str "channels_last")]);
  Assign [Name "up_sampling_2"] (Call (Name "UpSampling3D") [TupleE [Int 1; Int 2;
      Int 2]] [kw "data_format" (Str "channels_last")]);
  Assign [Name "relu"] (Call (Name "ReLU") [] [kw "negative_slope" (Float "0.1");
      kw "max_value" (Float "10.")]);
  Assign [Name "conv_kwargs"] (DictE [Str "dilation_rate"; Str "padding"; Str "activation";
      Str "data_format"] [Int 1; Str "valid"; Str "linear"; Str "channels_last"]);
  Assign [Name "skip_connections"] (Compare (Str "unet") [CIn] [Call (Attribute (Name
      "cnn_model_name") "lower") [] []]);
  Assign [Name "conv_2d_1"] (Call (Name "CubeSphereConv2D") [Name "base_filter_number";
      Int 3] [kwargs (Name "conv_kwargs")]);
  Assign [Name "conv_2d_1_2"] (Call (Name "CubeSphereConv2D") [Name "base_filter_number";
      Int 3] [kwargs (Name "conv_kwargs")]);
  Assign [Name "conv_2d_1_3"] (Call (Name "CubeSphereConv2D") [Name "base_filter_number";
      Int 3] [kwargs (Name "conv_kwargs")]);
  Assign [Name "conv_2d_2"] (Call (Name "CubeSphereConv2D") [BinOp (Name "base_filter_number")
      Mult (Int 2); Int 3] [kwargs (Name "conv_kwargs")]);
  Assign [Name "conv_2d_2_2"] (Call (Name "CubeSphereConv2D") [BinOp (Name "base_filter_number")
      Mult (Int 2); Int 3] [kwargs (Name "conv_kwargs")]);
  Assign [Name "conv_2d_2_3"] (Call (Name "CubeSphereConv2D") [BinOp (Name "base_filter_number")
      Mult (Int 2); Int 3] [kwargs (Name "conv_kwargs")]);
  Assign [Name "conv_2d_3"] (Call (Name "CubeSphereConv2D") [BinOp (Name "base_filter_number")
      Mult (Int 4); Int 3] [kwargs (Name "conv_kwargs")]);
  Assign [Name "conv_2d_3_2"] (Call (Name "CubeSphereConv2D") [BinOp (Name "base_filter_number")
      Mult (Int 4); Int 3] [kwargs (Name "conv_kwargs")]);
  Assign [Name "conv_2d_4"] (Call (Name "CubeSphereConv2D") [IfExp (Name "skip_connections")
      (BinOp (Name "base_filter_number") Mult (Int 4)) (BinOp (Name "base_filter_number") Mult
      (Int 8)); Int 3] [kwargs (Name "conv_kwargs")]);
  Assign [Name "conv_2d_4_2"] (Call (Name "CubeSphereConv2D") [BinOp (Name "base_filter_number")
      Mult (Int 8); Int 3] [kwargs (Name "conv_kwargs")]);
  Assign [Name "conv_2d_5"] (Call (Name "CubeSphereConv2D") [IfExp (Name "skip_connections")
      (BinOp (Name "base_filter_number") Mult (Int 2)) (BinOp (Name "base_filter_number") Mult
      (Int 4)); Int 3] [kwargs (Name "conv_kwargs")]);
  Assign [Name "conv_2d_5_2"] (Call (Name "CubeSphereConv2D") [BinOp (Name "base_filter_number")
      Mult (Int 4); Int 3] [kwargs (Name "conv_kwargs")]);
  Assign [Name "conv_2d_5_3"] (Call (Name "CubeSphereConv2D") [BinOp (Name "base_filter_number")
      Mult (Int 4); Int 3] [kwargs (Name "conv_kwargs")]);
  Assign [Name "conv_2d_6"] (Call (Name "CubeSphereConv2D") [IfExp (Name "skip_connections")
      (Name "base_filter_number") (BinOp (Name "base_filter_number") Mult (Int 2));
      Int 3] [kwargs (Name "conv_kwargs")]);
  Assign [Name "conv_2d_6_2"] (Call (Name "CubeSphereConv2D") [BinOp (Name "base_filter_number")
      Mult (Int 2); Int 3] [kwargs (Name "conv_kwargs")]);
  Assign [Name "conv_2d_6_3"] (Call (Name "CubeSphereConv2D") [BinOp (Name "base_filter_number")
      Mult (Int 2); Int 3] [kwargs (Name "conv_kwargs")]);
  Assign [Name "conv_2d_7"] (Call (Name "CubeSphereConv2D") [Name "base_filter_number";
      Int 3] [kwargs (Name "conv_kwargs")]);
  Assign [Name "conv_2d_7_2"] (Call (Name "CubeSphereConv2D") [Name "base_filter_number";
      Int 3] [kwargs (Name "conv_kwargs")]);
  Assign [Name "conv_2d_7_3"] (Call (Name "CubeSphereConv2D") [Name "base_filter_number";
      Int 3] [kwargs (Name "conv_kwargs")]);
  Assign [Name "conv_2d_8"] (Call (Name "CubeSphereConv2D") [Subscript (Name "cso") (UnaryOp USub
      (Int 1)); Int 1] [kw "name" (Str "output"); kwargs (Name "conv_kwargs")])].

(** Code cell 13, which starts [def unet2(x):] *)
Definition training_cell_13 : list stmt := [
  FunctionDef "unet2" ["x"] [
    Assign [Name "x0"] (Call (Name "cube_padding_1") [Name "x"] []);
    Assign [Name "x0"] (Call (Name "relu") [Call (Name "conv_2d_1") [Name "x0"] []] []);
    Assign [Name "x0"] (Call (Name "cube_padding_1") [Name "x0"] []);
    Assign [Name "x0"] (Call (Name "relu") [Call (Name "conv_2d_1_2") [Name "x0"] []] []);
    Assign [Name "x1"] (Call (Name "pooling_2") [Name "x0"] []);
    Assign [Name "x1"] (Call (Name "cube_padding_1") [Name "x1"] []);
    Assign [Name "x1"] (Call (Name "relu") [Call (Name "conv_2d_2") [Name "x1"] []] []);
    Assign [Name "x1"] (Call (Name "cube_padding_1") [Name "x1"] []);
    Assign [Name "x1"] (Call (Name "relu") [Call (Name "conv_2d_2_2") [Name "x1"] []] []);
    Assign [Name "x2"] (Call (Name "pooling_2") [Name "x1"] []);
    Assign [Name "x2"] (Call (Name "cube_padding_1") [Name "x2"] []);
    Assign [Name "x2"] (Call (Name "relu") [Call (Name "conv_2d_5_2") [Name "x2"] []] []);
    Assign [Name "x2"] (Call (Name "cube_padding_1") [Name "x2"] []);
    Assign [Name "x2"] (Call (Name "relu") [Call (Name "conv_2d_5") [Name "x2"] []] []);
    Assign [Name "x2"] (Call (Name "up_sampling_2") [Name "x2"] []);
    Assign [Name "x"] (Call (Name "concatenate") [ListE [Name "x2";
        Name "x1"]] [kw "axis" (UnaryOp USub (Int 1))]);
    Assign [Name "x"] (Call (Name "cube_padding_1") [Name "x"] []);
    Assign [Name "x"] (Call (Name "relu") [Call (Name "conv_2d_6_2") [Name "x"] []] []);
    Assign [Name "x"] (Call (Name "cube_padding_1") [Name "x"] []);
    Assign [Name "x"] (Call (Name "relu") [Call (Name "conv_2d_6") [Name "x"] []] []);
    Assign [Name "x"] (Call (Name "up_sampling_2") [Name "x"] []);
    Assign [Name "x"] (Call (Name "concatenate") [ListE [Name "x";
        Name "x0"]] [kw "axis" (UnaryOp USub (Int 1))]);
    Assign [Name "x"] (Call (Name "cube_padding_1") [Name "x"] []);
    Assign [Name "x"] (Call (Name "relu") [Call (Name "conv_2d_7") [Name "x"] []] []);
    Assign [Name "x"] (Call (Name "cube_padding_1") [Name "x"] []);
    Assign [Name "x"] (Call (Name "relu") [Call (Name "conv_2d_7_2") [Name "x"] []] []);
    Assign [Name "x"] (Call (Name "conv_2d_8") [Name "x"] []);
    Return (Some (Name "x"))]].

(** Code cell 14, which starts [from tensorflow.keras.layers import Reshape, Concatenate,
    Permute] *)
Definition training_cell_14 : list stmt := [
  ImportFrom "tensorflow.keras.layers" [("Reshape", None); ("Concatenate", None);
      ("Permute", None)];
  FunctionDef "complete_model" ["x_in"] [
    Assign [Name "outputs"] (ListE []);
    Assign [Name "model_function"] (Subscript (Call (Name "globals") [] []) (Name
        "cnn_model_name"));
    Assign [Name "is_seq"] (Call (Name "isinstance") [Name "x_in"; TupleE [Name "list";
        Name "tuple"]] []);
    Assign [Name "xi"] (IfExp (Name "is_seq") (Subscript (Name "x_in") (Int 0)) (Name "x_in"));
    Expr (Call (Attribute (Name "outputs") "append") [Call (Name "model_function") [Name "xi"]
        []] []);
    For (Name "step") (Call (Name "range") [Int 1; Name "integration_steps"] []) [
      Assign [Name "xo"] (Subscript (Name "outputs") (BinOp (Name "step") Sub (Int 1)));
      If (BoolOp And [Name "is_seq"; Name "input_solar"]) [
        Assign [Name "xo"] (Call (Call (Name "Reshape") [BinOp (Subscript (Name "cs") (Slice None
            (Some (UnaryOp USub (Int 1))) None)) Add (TupleE [Name "io_time_steps";
            UnaryOp USub (Int 1)])] []) [Name "xo"] []);
        Assign [Name "xo"] (Call (Call (Name "Concatenate") [] [kw "axis" (UnaryOp USub (Int
            1))]) [ListE [Name "xo"; Call (Call (Name "Permute") [TupleE [Int 2; Int 3; Int 4;
            Int 1; Int 5]] []) [Subscript (Name "x_in") (Name "step")] []]] []);
        Assign [Name "xo"] (Call (Call (Name "Reshape") [Name "cs"] []) [Name "xo"] [])] [];
      Expr (Call (Attribute (Name "outputs") "append") [Call (Name "model_function") [Name "xo"]
          []] [])] [];
    Return (Some (Name "outputs"))]].

(** Code cell 15, which starts [from tensorflow.keras.models import Model] *)
Definition training_cell_15 : list stmt := [
  ImportFrom "tensorflow.keras.models" [("Model", None)];
  If (UnaryOp Not (Name "input_solar")) [
    Assign [Name "inputs"] (Name "main_input")] [
    Assign [Name "inputs"] (ListE [Name "main_input"]);
    If (Name "input_solar") [
      Assign [Name "inputs"] (BinOp (Name "inputs") Add (Name "solar_inputs"))] []];
  Assign [Name "model"] (Call (Name "Model") [] [kw "inputs" (Name "inputs");
      kw "outputs" (Call (Name "complete_model") [Name "inputs"] [])])].

(** Code cell 16, which starts [import tensorflow as tf] *)
Definition training_cell_16 : list stmt := [
  Import [("tensorflow", (Some "tf"))];
  ImportFrom "tensorflow.keras.optimizers" [("Adam", None)];
  Assign [Name "loss_function"] (Str "mse");
  Assign [Name "opt"] (Call (Name "Adam") [] []);
  If (Name "use_mp_optimizer") [
    Assign [Name "opt"] (Call (Attribute (Attribute (Attribute (Name "tf") "train")
        "experimental") "enable_mixed_precision_graph_rewrite") [Name "opt"] [])] []].

(** Code cell 17, which starts [dlwp.build_model(model, loss=loss_function,
    loss_weights=loss_by_step, optimizer=opt, metrics=['mae'])] *)
Definition training_cell_17 : list stmt := [
  Expr (Call (Attribute (Name "dlwp") "build_model") [Name "model"] [kw "loss" (Name
      "loss_function"); kw "loss_weights" (Name "loss_by_step"); kw "optimizer" (Name "opt");
      kw "metrics" (ListE [Str "mae"])]);
  Expr (Call (Name "print") [Call (Attribute (Attribute (Name "dlwp") "base_model") "summary") []
      []] [])].

(** Code cell 18, which starts [from tensorflow.keras.callbacks import History, TensorBoard] *)
Definition training_cell_18 : list stmt := [
  ImportFrom "tensorflow.keras.callbacks" [("History", None); ("TensorBoard", None)];
  ImportFrom "DLWP.custom" [("EarlyStoppingMin", None); ("SaveWeightsOnEpoch", None);
      ("GeneratorEpochEnd", None)];
  Assign [Name "history"] (Call (Name "History") [] []);
  Assign [Name "early"] (Call (Name "EarlyStoppingMin") [] [kw "monitor" (IfExp (Compare (Name
      "validation_data") [CIsNot] [NoneLit]) (Str "val_loss") (Str "loss"));
      kw "min_delta" (Float "0."); kw "min_epochs" (Name "min_epochs");
      kw "max_epochs" (Name "max_epochs"); kw "patience" (Name "patience");
      kw "restore_best_weights" (Boolean true); kw "verbose" (Int 1)]);
  Assign [Name "tensorboard"] (Call (Name "TensorBoard") [] [kw "log_dir" (Name "log_directory");
      kw "update_freq" (Str "epoch")])].

(** Code cell 19, which starts [import time] *)
Definition training_cell_19 : list stmt := [
  Import [("time", None)];
  Assign [Name "start_time"] (Call (Attribute (Name "time") "time") [] []);
  Expr (Call (Attribute (Name "dlwp") "fit_generator") [Name "tf_train_data"] [kw "epochs" (BinOp
      (Name "max_epochs") Add (Int 1)); kw "verbose" (Int 1);
      kw "validation_data" (Name "tf_val_data"); kw "callbacks" (ListE [Name "history";
      Name "early"; Call (Name "GeneratorEpochEnd") [Name "generator"] []])]);
  Assign [Name "end_time"] (Call (Attribute (Name "time") "time") [] [])].

(** Code cell 20, which starts [from DLWP.util import save_model] *)
Definition training_cell_20 : list stmt := [
  ImportFrom "DLWP.util" [("save_model", None)];
  Expr (Call (Name "save_model") [Name "dlwp";
      Name "model_file"] [kw "history" (Name "history")]);
  Expr (Call (Name "print") [BinOp (Str "Wrote model %s") Mod (Name "model_file")] [])].

(** Code cell 21, which starts [print('\nTrain time -- %s seconds --' % (end_time - start_time))]
    *)
Definition training_cell_21 : list stmt := [
  Expr (Call (Name "print") [BinOp (Str (nl ++ "Train time -- %s seconds --")%string) Mod (BinOp
      (Name "end_time") Sub (Name "start_time"))] []);
  Assign [Name "score"] (Call (Attribute (Name "dlwp") "evaluate") [Starred (Call (Attribute
      (Name "val_generator") "generate") [ListE []] [])] [kw "verbose" (Int 0)]);
  Expr (Call (Name "print") [Str "Validation loss:"; Subscript (Name "score") (Int 0)] []);
  Expr (Call (Name "print") [Str "Other scores:";
      Subscript (Name "score") (Slice (Some (Int 1)) None None)] [])].

Definition training_notebook : list (list stmt) :=
  [training_cell_1;
   training_cell_2;
   training_cell_3;
   training_cell_4;
   training_cell_5;
   training_cell_6;
   training_cell_7;
   training_cell_8;
   training_cell_9;
   training_cell_10;
   training_cell_11;
   training_cell_12;
   training_cell_13;
   training_cell_14;
   training_cell_15;
   training_cell_16;
   training_cell_17;
   training_cell_18;
   training_cell_19;
   training_cell_20;
   training_cell_21].

(** ** What the cells contain *)

(** The code cells of the repository, notebook 1 first. *)
Definition code_cells : list (list stmt) := download_notebook ++ training_notebook.

Definition statements_of (cells : list (list stmt)) : list stmt :=
  flat_map cell_statements cells.
Definition exprs_of (cells : list (list stmt)) : list expr :=
  flat_map cell_exprs cells.

Definition is_function_def (s : stmt) : bool :=
  match s with
  | FunctionDef _ _ _ | AsyncFunctionDef _ _ _ => true
  | _ => false
  end.

Definition is_class_def (s : stmt) : bool :=
  match s with
  | ClassDef _ _ _ => true
  | _ => false
  end.

Definition is_loop (s : stmt) : bool :=
  match s with
  | For _ _ _ _ | While _ _ _ => true
  | _ => false
  end.

Definition is_branch (s : stmt) : bool :=
  match s with
  | If _ _ _ => true
  | _ => false
  end.

(** [try] and [with] are the statements that can stop an exception. *)
Definition is_handler (s : stmt) : bool :=
  match s with
  | Try _ _ _ _ | With _ _ => true
  | _ => false
  end.

(** [raise] and [assert] are the statements that raise an exception of the
    code's own. *)
Definition is_raise (s : stmt) : bool :=
  match s with
  | Raise _ | Assert _ => true
  | _ => false
  end.

Definition is_lambda (e : expr) : bool :=
  match e with
  | Lambda _ _ => true
  | _ => false
  end.

Definition is_comprehension (e : expr) : bool :=
  match e with
  | ListComp _ _ _ _ => true
  | _ => false
  end.

Definition is_conditional (e : expr) : bool :=
  match e with
  | IfExp _ _ _ => true
  | _ => false
  end.


(** The names given by [def]. *)
Definition defined_functions (cells : list (list stmt)) : list string :=
  flat_map (fun s => match s with
                     | FunctionDef name _ _ | AsyncFunctionDef name _ _ => [name]
                     | _ => []
                     end) (statements_of cells).

(** The body of the function [name], when a cell defines it. *)
Definition function_body (cells : list (list stmt)) (name : string) : option (list stmt) :=
  match filter (fun s => match s with
                         | FunctionDef n _ _ => String.eqb n name
                         | _ => false
                         end) (statements_of cells) with
  | FunctionDef _ _ body :: _ => Some body
  | _ => None
  end.

(** A dotted path for the function of a call: [a.b.c] is [["a"; "b"; "c"]],
    a call or a subscript on the way is marked. *)
Fixpoint dotted (e : expr) : list string :=
  match e with
  | Name id => [id]
  | Attribute value attr => dotted value ++ [attr]
  | Call func _ _ => dotted func ++ ["()"]
  | Subscript value _ => dotted value ++ ["[]"]
  | _ => ["?"]
  end.

(** The functions called, in the order of [exprs_of], each as a dotted path. *)
Definition callees (cells : list (list stmt)) : list (list string) :=
  flat_map (fun e => match e with
                     | Call func _ _ => [dotted func]
                     | _ => []
                     end) (exprs_of cells).


(** ** How an exception travels through a cell

    Values are left out: an operation either returns or raises, a branch
    goes either way and a loop runs any number of rounds, so the relation
    admits every run Python can make of a cell.  A run is recorded as the
    operations performed, each with what it did. *)

(** Where an operation is performed: at an expression node (a call, a
    subscript, a name lookup, ...) or by a statement (an import, an
    assignment, a line magic). *)
Inductive site : Type :=
| AtExpr (e : expr)
| AtStmt (s : stmt).

(** An operation returned ([None]) or raised. *)
Definition event : Type := site * option exn.

(** How a statement or a cell ends: it runs to its end, it returns from the
    enclosing function, or an exception leaves it. *)
Inductive outcome : Type :=
| Finished
| Returned
| Propagated (x : exn).

Definition raised (out : outcome) : option exn :=
  match out with
  | Propagated x => Some x
  | _ => None
  end.

Definition ends (r : option exn) (otherwise : outcome) : outcome :=
  match r with
  | Some x => Propagated x
  | None => otherwise
  end.

(** Nodes that evaluate only some of their operands, or some of them again
    and again. *)
Definition is_lazy (e : expr) : bool :=
  match e with
  | BoolOp _ _ | IfExp _ _ _ | ListComp _ _ _ _ | Lambda _ _ | Compare _ _ _ => true
  | _ => false
  end.

(** Statements without statements nested in them that the code can run past. *)
Definition is_simple (s : stmt) : bool :=
  match s with
  | FunctionDef _ _ _ | AsyncFunctionDef _ _ _ | Return _ | Assign _ _ | AugAssign _ _ _
  | Import _ | ImportFrom _ _ | Expr _ | Pass | LineMagic _ _ => true
  | _ => false
  end.

Definition completes (s : stmt) : outcome :=
  match s with
  | Return _ => Returned
  | _ => Finished
  end.

Section Flow.

(** The cells whose function definitions a call may enter. *)
Variable program : list (list stmt).

Inductive eval : expr -> list event -> option exn -> Prop :=
| eval_operand_raises e tr x :
    eval_operands e tr (Some x) ->
    eval e tr (Some x)
| eval_operation e tr r :
    (* the node's own operation, a library call among them, returns or raises *)
    eval_operands e tr None ->
    eval e (tr ++ [(AtExpr e, r)]) r
| eval_call_defined func args keywords tr name params body tr' out :
    (* the call enters a function the notebook defines *)
    eval_operands (Call func args keywords) tr None ->
    In (FunctionDef name params body) (statements_of program) ->
    exec_block body tr' out ->
    eval (Call func args keywords) (tr ++ tr') (raised out)

with eval_operands : expr -> list event -> option exn -> Prop :=
| operands_strict e tr r :
    is_lazy e = false -> eval_all (operands e) tr r -> eval_operands e tr r
| operands_lazy e tr r :
    is_lazy e = true -> eval_some (operands e) tr r -> eval_operands e tr r

(** All of them, left to right, up to the first that raises. *)
with eval_all : list expr -> list event -> option exn -> Prop :=
| all_nil : eval_all [] [] None
| all_next e es tr1 tr2 r :
    eval e tr1 None -> eval_all es tr2 r -> eval_all (e :: es) (tr1 ++ tr2) r
| all_raises e es tr x :
    eval e tr (Some x) -> eval_all (e :: es) tr (Some x)

(** Any of them, any number of times, up to the first that raises. *)
with eval_some : list expr -> list event -> option exn -> Prop :=
| some_nil es : eval_some es [] None
| some_next e es tr1 tr2 r :
    In e es -> eval e tr1 None -> eval_some es tr2 r -> eval_some es (tr1 ++ tr2) r
| some_raises e es tr x :
    In e es -> eval e tr (Some x) -> eval_some es tr (Some x)

with exec : stmt -> list event -> outcome -> Prop :=
| exec_simple_raises s tr x :
    is_simple s = true ->
    eval_all (own_exprs s) tr (Some x) ->
    exec s tr (Propagated x)
| exec_simple s tr r :
    is_simple s = true ->
    eval_all (own_exprs s) tr None ->
    exec s (tr ++ [(AtStmt s, r)]) (ends r (completes s))
| exec_raise exc tr r x :
    (* [raise]: an exception of the code's own, unless its operand raised *)
    eval_all (of_option exc) tr r ->
    exec (Raise exc) tr (ends r (Propagated x))
| exec_assert test tr r out :
    eval test tr r ->
    out <> Returned ->
    exec (Assert test) tr (ends r out)
| exec_class_raises name bases body tr x :
    eval_all bases tr (Some x) ->
    exec (ClassDef name bases body) tr (Propagated x)
| exec_class name bases body tr tr' out :
    eval_all bases tr None ->
    exec_block body tr' out ->
    exec (ClassDef name bases body) (tr ++ tr') out
| exec_if_raises test body orelse tr x :
    eval test tr (Some x) ->
    exec (If test body orelse) tr (Propagated x)
| exec_if_then test body orelse tr tr' out :
    eval test tr None ->
    exec_block body tr' out ->
    exec (If test body orelse) (tr ++ tr') out
| exec_if_else test body orelse tr tr' out :
    eval test tr None ->
    exec_block orelse tr' out ->
    exec (If test body orelse) (tr ++ tr') out
| exec_for_raises target iter body orelse tr x :
    eval iter tr (Some x) ->
    exec (For target iter body orelse) tr (Propagated x)
| exec_for target iter body orelse tr tr' out tr'' out' :
    eval iter tr None ->
    rounds [target] body tr' out ->
    exec_block (match out with Finished => orelse | _ => [] end) tr'' out' ->
    exec (For target iter body orelse) (tr ++ tr' ++ tr'')
         (match out with Finished => out' | _ => out end)
| exec_while test body orelse tr out tr' out' :
    rounds [test] body tr out ->
    exec_block (match out with Finished => orelse | _ => [] end) tr' out' ->
    exec (While test body orelse) (tr ++ tr')
         (match out with Finished => out' | _ => out end)
| exec_with_raises items body tr x :
    eval_all items tr (Some x) ->
    exec (With items body) tr (Propagated x)
| exec_with items body tr tr' out :
    eval_all items tr None ->
    exec_block body tr' out ->
    exec (With items body) (tr ++ tr') out
| exec_with_swallows items body tr tr' x :
    (* the context manager swallows an exception of the body *)
    eval_all items tr None ->
    exec_block body tr' (Propagated x) ->
    exec (With items body) (tr ++ tr') Finished
| exec_try_passes body handlers orelse finalbody tr out tr' out' :
    exec_block body tr out ->
    raised out = None ->
    exec_block (match out with Finished => orelse ++ finalbody | _ => finalbody end) tr' out' ->
    exec (Try body handlers orelse finalbody) (tr ++ tr')
         (match out' with Finished => out | _ => out' end)
| exec_try_caught body handlers orelse finalbody tr x type handler tr' out :
    (* a handler takes the exception: what it raised is gone *)
    exec_block body tr (Propagated x) ->
    In (type, handler) handlers ->
    exec_block (handler ++ finalbody) tr' out ->
    exec (Try body handlers orelse finalbody) (tr ++ tr') out
| exec_try_uncaught body handlers orelse finalbody tr x tr' out :
    exec_block body tr (Propagated x) ->
    exec_block finalbody tr' out ->
    exec (Try body handlers orelse finalbody) (tr ++ tr')
         (match out with Finished => Propagated x | _ => out end)

(** The statements of a block, up to the first that does not run to its end. *)
with exec_block : list stmt -> list event -> outcome -> Prop :=
| block_nil : exec_block [] [] Finished
| block_next s ss tr1 tr2 out :
    exec s tr1 Finished -> exec_block ss tr2 out -> exec_block (s :: ss) (tr1 ++ tr2) out
| block_stops s ss tr out :
    exec s tr out -> out <> Finished -> exec_block (s :: ss) tr out

(** The rounds of a loop: before each, the loop's header is evaluated (the
    next item is bound, the test is made). *)
with rounds : list expr -> list stmt -> list event -> outcome -> Prop :=
| rounds_end header body tr r :
    eval_all header tr r -> rounds header body tr (ends r Finished)
| rounds_next header body tr1 tr2 tr3 out :
    eval_all header tr1 None ->
    exec_block body tr2 Finished ->
    rounds header body tr3 out ->
    rounds header body (tr1 ++ tr2 ++ tr3) out
| rounds_stops header body tr1 tr2 out :
    eval_all header tr1 None ->
    exec_block body tr2 out ->
    out <> Finished ->
    rounds header body (tr1 ++ tr2) out.

End Flow.

(** A statement with no [try], [with], [raise] or [assert] in it. *)
Fixpoint plain (s : stmt) : bool :=
  match s with
  | Try _ _ _ _ | With _ _ | Raise _ | Assert _ => false
  | FunctionDef _ _ body | AsyncFunctionDef _ _ body | ClassDef _ _ body => forallb plain body
  | For _ _ body orelse | While _ body orelse | If _ body orelse =>
      forallb plain body && forallb plain orelse
  | _ => true
  end.

(** No operation of the run raised. *)
Definition quiet (tr : list event) : Prop :=
  forall ev, In ev tr -> snd ev = None.

(** A run in which nothing is handled: when it raised, the operation that
    raised is the last one performed and nothing raised before it; when it
    did not, no operation raised. *)
Definition unhandled (tr : list event) (r : option exn) : Prop :=
  match r with
  | None => quiet tr
  | Some x => exists tr0 st, tr = tr0 ++ [(st, Some x)] /\ quiet tr0
  end.

(** ** Measures of the graph [unet2] builds *)

Definition Layer_eq_dec (a b : Layer) : {a = b} + {a <> b}.
Proof.
  decide equality;
    first [ apply Z.eq_dec | apply string_dec | apply (list_eq_dec Z.eq_dec) ].
Defined.

Fixpoint tensor_eqb (a b : KerasTensor) : bool :=
  match a, b with
  | Node la ia, Node lb ib =>
      (if Layer_eq_dec la lb then true else false)
      && (fix all2 (xs ys : list KerasTensor) : bool :=
            match xs, ys with
            | [], [] => true
            | x :: xs', y :: ys' => tensor_eqb x y && all2 xs' ys'
            | _, _ => false
            end) ia ib
  end.

(** Every tensor of a graph, the output first. *)
Fixpoint tensors (t : KerasTensor) : list KerasTensor :=
  match t with
  | Node _ inbound => t :: flat_map tensors inbound
  end.

(** [t] is [g] or reaches it through layers. *)
Definition feeds (t g : KerasTensor) : bool := existsb (tensor_eqb t) (tensors g).

(** A node with two inbound tensors, the second of which also feeds the
    first: the second skips the layers in between. *)
Definition is_skip (n : KerasTensor) : bool :=
  match n with
  | Node _ [a; b] => feeds b a
  | _ => false
  end.

Definition skip_connections (g : KerasTensor) : list KerasTensor :=
  filter is_skip (tensors g).

Definition layer_of (t : KerasTensor) : Layer :=
  match t with
  | Node layer _ => layer
  end.

(** ** The specification's general sentences, read on the cells *)

(** A function body that is a straight line of assignments, calls and a
    return: no loop, no branch, no comprehension, no conditional
    expression. *)
Definition straight_line (body : list stmt) : bool :=
  forallb (fun s => match s with
                    | Assign _ _ | Expr _ | Return _ | Pass => true
                    | _ => false
                    end) (cell_statements body)
  && forallb (fun e => negb (is_comprehension e || is_conditional e || is_lambda e))
             (cell_exprs body).

(** "No function defined inside the notebooks performs an algorithmic
    computation": every function a cell defines is a straight line. *)
Definition no_algorithm_of_its_own (cells : list (list stmt)) : Prop :=
  forall name body, function_body cells name = Some body -> straight_line body = true.

(** "No loops, branches, or composed dataflow introduced by the repository's
    code": no statement of a cell is a loop or a branch, and no expression a
    comprehension or a conditional expression. *)
Definition no_control_flow (cells : list (list stmt)) : Prop :=
  (forall s, In s (statements_of cells) -> is_loop s = false /\ is_branch s = false)
  /\ (forall e, In e (exprs_of cells) -> is_comprehension e = false /\ is_conditional e = false).

(** "No function or value defined in the notebooks maintains a property that
    holds across its operations": whatever holds of every list
    [complete_model] returns holds of every list. *)
Definition no_invariant : Prop :=
  forall P : Settings -> list KerasTensor -> Prop,
    (forall s x_in outputs, complete_model keras s x_in = Ok outputs -> P s outputs) ->
    forall s outputs, P s outputs.





(** The callables of Python and its standard library that make a new type. *)
Definition type_makers : list (list string) :=
  [["type"]; ["namedtuple"]; ["collections"; "namedtuple"]; ["NamedTuple"];
   ["make_dataclass"]; ["dataclasses"; "make_dataclass"]; ["dataclass"];
   ["Enum"]; ["enum"; "Enum"]; ["TypedDict"]; ["NewType"]].

Definition path_eqb (a b : list string) : bool :=
  if list_eq_dec string_dec a b then true else false.

(** The module a name was imported from, by the first import that binds it. *)
Definition origin (cells : list (list stmt)) (name : string) : option string :=
  let bound (module : option string) (a : string * option string) :=
    if String.eqb (match snd a with Some asname => asname | None => fst a end) name
    then [match module with Some m => m | None => fst a end] else [] in
  hd_error (flat_map (fun s => match s with
                               | Import names => flat_map (bound None) names
                               | ImportFrom module names => flat_map (bound (Some module)) names
                               | _ => []
                               end) (statements_of cells)).



Definition mem (x : string) (l : list string) : bool := existsb (String.eqb x) l.



(** ** Readings on the embedded functions *)

(** The inputs [complete_model] can subscript as it does: a tensor, or a
    sequence with a first element and, when the insolation is appended, one
    element for every integration step. *)
Definition well_formed {Tensor : Type} (s : Settings) (x_in : PyArg Tensor) : Prop :=
  match x_in with
  | Single _ => True
  | Sequence ts =>
      if input_solar s then integration_steps s <= Z.of_nat (List.length ts)
      else 1 <= Z.of_nat (List.length ts)
  end.

(** How many input tensors [Model] is given. *)
Definition number_of_inputs {Tensor : Type} (ins : PyArg Tensor) : nat :=
  match ins with
  | Single _ => 1
  | Sequence ts => List.length ts
  end.

(** The exception is one a layer call raised. *)
Definition library_raised {Tensor : Type} (call : Layer -> list Tensor -> result Tensor)
    (e : exn) : Prop :=
  exists layer inbound, call layer inbound = Raised e.

(** No layer call raises. *)
Definition library_returns {Tensor : Type} (call : Layer -> list Tensor -> result Tensor)
  : Prop :=
  forall layer inbound, exists t, call layer inbound = Ok t.

(** How a variable of the notebooks got its value: the function called by
    the first assignment [name = f(...)]. *)
Definition made_by (cells : list (list stmt)) (name : string) : option (list string) :=
  hd_error (flat_map (fun s => match s with
                               | Assign [Name n] (Call func _ _) =>
                                   if String.eqb n name then [dotted func] else []
                               | _ => []
                               end) (statements_of cells)).



(** The first component of a dotted module name. *)
Fixpoint module_root (m : string) : string :=
  match m with
  | EmptyString => EmptyString
  | String c rest => if Ascii.eqb c "."%char then EmptyString else String c (module_root rest)
  end.

(** Python's built-in functions. *)
Definition builtins : list string :=
  ["abs"; "all"; "any"; "bool"; "callable"; "dict"; "dir"; "enumerate"; "filter"; "float";
   "format"; "getattr"; "globals"; "hasattr"; "id"; "input"; "int"; "isinstance"; "iter";
   "len"; "list"; "locals"; "map"; "max"; "min"; "next"; "open"; "print"; "range"; "repr";
   "reversed"; "round"; "set"; "setattr"; "sorted"; "str"; "sum"; "tuple"; "type"; "vars";
   "zip"].

(** The value of the first assignment [name = value]. *)
Definition assigned_value (cells : list (list stmt)) (name : string) : option expr :=
  hd_error (flat_map (fun s => match s with
                               | Assign [Name n] value =>
                                   if String.eqb n name then [value] else []
                               | _ => []
                               end) (statements_of cells)).

(** Where the name a call starts from comes from: a [def] of the notebooks,
    an import, the result of a call, another value assigned in the
    notebooks, or a built-in. *)
Inductive provenance : Type :=
| DefinedHere
| Imported (module : string)
| ObjectOf (maker : list string)
| LocalValue (value : expr)
| BuiltIn
| Unbound.

Definition provenance_of (cells : list (list stmt)) (name : string) : provenance :=
  if mem name (defined_functions cells) then DefinedHere
  else match origin cells name with
       | Some module => Imported module
       | None =>
           match assigned_value cells name with
           | Some (Call func _ _) => ObjectOf (dotted func)
           | Some value => LocalValue value
           | None => if mem name builtins then BuiltIn else Unbound
           end
       end.

(** The name comes from outside the notebooks: it is imported or built in,
    or it is an object an imported function returned. *)
Definition external (cells : list (list stmt)) (name : string) : bool :=
  match provenance_of cells name with
  | Imported _ | BuiltIn => true
  | ObjectOf maker =>
      match origin cells (hd "" maker) with
      | Some _ => true
      | None => false
      end
  | _ => false
  end.

(** The names the calls of the cells start from, each once. *)
Definition callee_roots (cells : list (list stmt)) : list string :=
  nodup string_dec (map (hd "") (callees cells)).


(** How many statements, and how many expressions, of the cells satisfy a
    test. *)
Definition count_statements (p : stmt -> bool) (cells : list (list stmt)) : nat :=
  List.length (filter p (statements_of cells)).
Definition count_exprs (p : expr -> bool) (cells : list (list stmt)) : nat :=
  List.length (filter p (exprs_of cells)).

(** The bodies of the two functions the training notebook defines, as code
    cells 13 and 14 hold them. *)
Definition unet2_body : list stmt :=
  Eval vm_compute in
    match function_body code_cells "unet2" with
    | Some body => body
    | None => []
    end.
Definition complete_model_body : list stmt :=
  Eval vm_compute in
    match function_body code_cells "complete_model" with
    | Some body => body
    | None => []
    end.

(** ** Inputs and runs used as instances *)

(** The tensors the notebook's [Input] calls return in the library [keras]. *)
Definition main_placeholder : KerasTensor := placeholder (cs tutorial) "main_input".
Definition solar_placeholder : KerasTensor := placeholder (insolation_shape tutorial) "solar_1".

(** The notebook's settings without the insolation. *)
Definition no_solar : Settings := {|
  integration_steps := 2;
  add_solar := false;
  io_time_steps := 2;
  cs := [6; 48; 48; 4];
  insolation_shape := []
|}.

(** The call of code cell 4 of notebook 1. *)
Definition retrieve_call : expr :=
  Call (Attribute (Name "era") "retrieve") [Name "variables"; Name "levels"]
       [kw "years" (Name "years"); kw "hourly" (Int 3);
        kw "request_kwargs" (DictE [Str "grid"] [ListE [Float "2."; Float "2."]]);
        kw "verbose" (Boolean true); kw "delete_temporary" (Boolean true)].

(** The call of [dlwp.fit_generator] in code cell 19 of the training
    notebook, and the assignment that follows it. *)
Definition fit_call : expr :=
  Call (Attribute (Name "dlwp") "fit_generator") [Name "tf_train_data"]
       [kw "epochs" (BinOp (Name "max_epochs") Add (Int 1)); kw "verbose" (Int 1);
        kw "validation_data" (Name "tf_val_data");
        kw "callbacks" (ListE [Name "history"; Name "early";
                               Call (Name "GeneratorEpochEnd") [Name "generator"] []])].
Definition end_time_assignment : stmt :=
  Assign [Name "end_time"] (Call (Attribute (Name "time") "time") [] []).


(** ** The layer objects and their filters *)

(** The layers [unet2] calls, in the order of their first call. *)
Definition unet2_layers : list Layer :=
  [cube_padding_1; conv_2d_1; relu; conv_2d_1_2; pooling_2; conv_2d_2; conv_2d_2_2;
   conv_2d_5_2; conv_2d_5; up_sampling_2; concatenate (-1); conv_2d_6_2; conv_2d_6;
   conv_2d_7; conv_2d_7_2; conv_2d_8].

(** [c.lower()] on the letters A to Z; every other character is kept. *)
Definition ascii_lower (c : ascii) : ascii :=
  let n := nat_of_ascii c in
  if (65 <=? n)%nat && (n <=? 90)%nat then ascii_of_nat (n + 32) else c.

Fixpoint lower (s : string) : string :=
  match s with
  | EmptyString => EmptyString
  | String c rest => String (ascii_lower c) (lower rest)
  end.

(** [sub in s] for strings. *)
Definition py_in (sub s : string) : bool :=
  match String.index 0 sub s with
  | Some _ => true
  | None => false
  end.

(** [skip_connections = 'unet' in cnn_model_name.lower()], for a model name. *)
Definition uses_skip_connections (name : string) : bool := py_in "unet" (lower name).

Definition is_convolution (layer : Layer) : bool :=
  match layer with
  | conv_2d_1 | conv_2d_1_2 | conv_2d_1_3 | conv_2d_2 | conv_2d_2_2 | conv_2d_2_3
  | conv_2d_3 | conv_2d_3_2 | conv_2d_4 | conv_2d_4_2
  | conv_2d_5 | conv_2d_5_2 | conv_2d_5_3 | conv_2d_6 | conv_2d_6_2 | conv_2d_6_3
  | conv_2d_7 | conv_2d_7_2 | conv_2d_7_3 | conv_2d_8 => true
  | _ => false
  end.

(** The first argument of each [CubeSphereConv2D(...)], the number of
    filters, for the convolutions whose filters are a multiple of
    [base_filter_number]; [conv_2d_8] takes [cso[-1]] instead. *)
Definition filters (base_filter_number : Z) (skip_connections : bool) (layer : Layer)
  : option Z :=
  match layer with
  | conv_2d_1 | conv_2d_1_2 | conv_2d_1_3 => Some base_filter_number
  | conv_2d_2 | conv_2d_2_2 | conv_2d_2_3 => Some (base_filter_number * 2)
  | conv_2d_3 | conv_2d_3_2 => Some (base_filter_number * 4)
  | conv_2d_4 =>
      Some (if skip_connections then base_filter_number * 4 else base_filter_number * 8)
  | conv_2d_4_2 => Some (base_filter_number * 8)
  | conv_2d_5 =>
      Some (if skip_connections then base_filter_number * 2 else base_filter_number * 4)
  | conv_2d_5_2 | conv_2d_5_3 => Some (base_filter_number * 4)
  | conv_2d_6 =>
      Some (if skip_connections then base_filter_number else base_filter_number * 2)
  | conv_2d_6_2 | conv_2d_6_3 => Some (base_filter_number * 2)
  | conv_2d_7 | conv_2d_7_2 | conv_2d_7_3 => Some base_filter_number
  | _ => None
  end.

(** The convolution a tensor comes out of: the nearest one on the way back
    through the first inbound tensors. *)
Fixpoint producer (t : KerasTensor) : option Layer :=
  match t with
  | Node layer inbound =>
      if is_convolution layer then Some layer
      else match inbound with
           | a :: _ => producer a
           | [] => None
           end
  end.

(** For each [concatenate] of two tensors in a graph, the convolutions the
    two come out of. *)
Definition concatenated (g : KerasTensor) : list (option Layer * option Layer) :=
  flat_map (fun n => match n with
                     | Node (concatenate _) [a; b] => [(producer a, producer b)]
                     | _ => []
                     end) (tensors g).

(** ** Settings and inputs compared *)

(** The settings with another number of integration steps. *)
Definition with_steps (n : Z) (s : Settings) : Settings := {|
  integration_steps := n;
  add_solar := add_solar s;
  io_time_steps := io_time_steps s;
  cs := cs s;
  insolation_shape := insolation_shape s
|}.

(** The notebook's settings with the sequence cut to one step. *)
Definition one_step_only : Settings := with_steps 1 tutorial.

(** How many elements of a list [x_in] the function [complete_model] reads:
    the first, and with [input_solar] one for each further step. *)
Definition elements_read (s : Settings) : nat :=
  if input_solar s then Z.to_nat (integration_steps s) else 1%nat.

(** The tensors of an argument, as a list. *)
Definition as_list {Tensor : Type} (arg : PyArg Tensor) : list Tensor :=
  match arg with
  | Single t => [t]
  | Sequence ts => ts
  end.

(** The name of a placeholder. *)
Definition input_name (t : KerasTensor) : option string :=
  match t with
  | Node (Input _ name) [] => Some name
  | _ => None
  end.

(** ** The files notebook 1 writes *)

(** [processed_file = '%s/tutorial_z500_t2m.nc' % data_directory] *)
Definition processed_file (data_directory : string) : string :=
  String.append data_directory "/tutorial_z500_t2m.nc".

(** [processed_file + '.nocoord'], the argument of [to_netcdf]. *)
Definition nocoord_file (data_directory : string) : string :=
  String.append (processed_file data_directory) ".nocoord".

(** ** Names assigned and names read *)

(** The names an assignment target binds. *)
Definition bound_names (target : expr) : list string :=
  match target with
  | Name id => [id]
  | TupleE elts | ListE elts =>
      flat_map (fun e => match e with
                         | Name id => [id]
                         | _ => []
                         end) elts
  | _ => []
  end.

(** The names the statements and comprehensions of the cells assign, one
    entry for each assignment. *)
Definition stores (cells : list (list stmt)) : list string :=
  flat_map (fun s => match s with
                     | Assign targets _ => flat_map bound_names targets
                     | For target _ _ _ => bound_names target
                     | _ => []
                     end) (statements_of cells)
  ++ flat_map (fun e => match e with
                        | ListComp _ target _ _ => bound_names target
                        | _ => []
                        end) (exprs_of cells).

(** How often a name stands in the expressions of the cells, as a target or
    to be read. *)
Definition occurrences (name : string) (cells : list (list stmt)) : nat :=
  List.length (filter (fun e => match e with
                                | Name id => String.eqb id name
                                | _ => false
                                end) (exprs_of cells)).

(** The names that are assigned and never read: all their occurrences are
    assignments. *)
Definition never_read (cells : list (list stmt)) : list string :=
  filter (fun name => (occurrences name cells =? count_occ string_dec (stores cells) name)%nat)
         (nodup string_dec (stores cells)).

(** The keyword argument [key] of the first call of [path]. *)
Definition keyword_of (cells : list (list stmt)) (path : list string) (key : string)
  : option expr :=
  hd_error (flat_map (fun e => match e with
                               | Call func _ keywords =>
                                   if path_eqb (dotted func) path then
                                     flat_map (fun k => match fst k with
                                                        | Some name =>
                                                            if String.eqb name key
                                                            then [snd k] else []
                                                        | None => []
                                                        end) keywords
                                   else []
                               | _ => []
                               end) (exprs_of cells)).

(** ** Names read before they are bound *)

(** The names an expression reads.  The target of a comprehension and the
    parameters of a [lambda] are bound inside it. *)
Fixpoint reads (e : expr) : list string :=
  match e with
  | BoolOp _ values => flat_map reads values
  | BinOp lhs _ rhs => reads lhs ++ reads rhs
  | UnaryOp _ operand => reads operand
  | Lambda params body => filter (fun n => negb (mem n params)) (reads body)
  | IfExp test body orelse => reads test ++ reads body ++ reads orelse
  | DictE keys values => flat_map reads keys ++ flat_map reads values
  | ListComp elt target iter ifs =>
      reads iter
      ++ filter (fun n => negb (mem n (bound_names target)))
                (flat_map reads ifs ++ reads elt)
  | Await value => reads value
  | Compare lhs _ comparators => reads lhs ++ flat_map reads comparators
  | Call func args keywords =>
      reads func ++ flat_map reads args ++ flat_map (fun k => reads (snd k)) keywords
  | Constant _ => []
  | Attribute value _ => reads value
  | Subscript value slice => reads value ++ reads slice
  | Starred value => reads value
  | Name id => [id]
  | ListE elts => flat_map reads elts
  | TupleE elts => flat_map reads elts
  | Slice lower upper step =>
      let opt o := match o with Some x => reads x | None => [] end in
      opt lower ++ opt upper ++ opt step
  end.

(** What an assignment target reads: nothing for a name, the object and the
    index for [obj[i] = ...] and [obj.attr = ...]. *)
Definition target_reads (target : expr) : list string :=
  match target with
  | Name _ => []
  | TupleE elts | ListE elts =>
      flat_map (fun e => match e with
                         | Name _ => []
                         | _ => reads e
                         end) elts
  | _ => reads target
  end.

(** The name [import m] or [from m import n] binds. *)
Definition import_binds (whole : bool) (name : string * option string) : string :=
  match snd name with
  | Some asname => asname
  | None => if whole then module_root (fst name) else fst name
  end.

(** The names a statement reads that nothing before it has bound, and the
    names bound after it.  The body of a [def] is read where the [def]
    stands, with its parameters bound; what either branch of an [if] or the
    body of a loop binds counts as bound afterwards. *)
Fixpoint unbound (s : stmt) (bound : list string) : list string * list string :=
  let block :=
    fix block (ss : list stmt) (bound : list string) : list string * list string :=
      match ss with
      | [] => ([], bound)
      | s :: rest =>
          let first := unbound s bound in
          let others := block rest (snd first) in
          (fst first ++ fst others, snd others)
      end in
  let missing names := filter (fun n => negb (mem n bound)) names in
  match s with
  | FunctionDef name params body | AsyncFunctionDef name params body =>
      (fst (block body (name :: params ++ bound)), name :: bound)
  | ClassDef name bases body =>
      (missing (flat_map reads bases) ++ fst (block body bound), name :: bound)
  | Return value => (missing (flat_map reads (of_option value)), bound)
  | Assign targets value =>
      (missing (reads value ++ flat_map target_reads targets),
       flat_map bound_names targets ++ bound)
  | AugAssign target _ value => (missing (reads target ++ reads value), bound)
  | For target iter body orelse =>
      let inside := block body (bound_names target ++ bound) in
      let after := block orelse (snd inside) in
      (missing (reads iter ++ target_reads target) ++ fst inside ++ fst after, snd after)
  | While test body orelse =>
      let inside := block body bound in
      let after := block orelse (snd inside) in
      (missing (reads test) ++ fst inside ++ fst after, snd after)
  | If test body orelse =>
      let yes := block body bound in
      let no := block orelse bound in
      (missing (reads test) ++ fst yes ++ fst no, snd yes ++ snd no)
  | With items body =>
      let inside := block body bound in
      (missing (flat_map reads items) ++ fst inside, snd inside)
  | Raise exc => (missing (flat_map reads (of_option exc)), bound)
  | Try body handlers orelse finalbody =>
      let tried := block body bound in
      let handled := flat_map (fun h => fst (block (snd h) (snd tried))) handlers in
      let types := flat_map (fun h => flat_map reads (of_option (fst h))) handlers in
      let bound' := flat_map (fun h => snd (block (snd h) (snd tried))) handlers
                    ++ snd tried in
      let other := block orelse bound' in
      let final := block finalbody (snd other) in
      (fst tried ++ missing types ++ handled ++ fst other ++ fst final, snd final)
  | Assert test => (missing (reads test), bound)
  | Import names => ([], map (import_binds true) names ++ bound)
  | ImportFrom _ names => ([], map (import_binds false) names ++ bound)
  | Expr value => (missing (reads value), bound)
  | Pass | LineMagic _ _ => ([], bound)
  end.

(** The same for the statements of a cell, one after the other. *)
Fixpoint unbound_block (ss : list stmt) (bound : list string) : list string * list string :=
  match ss with
  | [] => ([], bound)
  | s :: rest =>
      let first := unbound s bound in
      let others := unbound_block rest (snd first) in
      (fst first ++ fst others, snd others)
  end.

(** The names the cells read, run from the first to the last, that neither
    an earlier statement has bound nor Python has built in; each once. *)
Definition unbound_reads (cells : list (list stmt)) : list string :=
  nodup string_dec (fst (unbound_block (List.concat cells) builtins)).

(** ** Induction principles and tactics *)

(** Induction over the runs of expressions, statements, blocks and loops
    together. *)
Scheme eval_min := Minimality for eval Sort Prop
  with eval_operands_min := Minimality for eval_operands Sort Prop
  with eval_all_min := Minimality for eval_all Sort Prop
  with eval_some_min := Minimality for eval_some Sort Prop
  with exec_min := Minimality for exec Sort Prop
  with exec_block_min := Minimality for exec_block Sort Prop
  with rounds_min := Minimality for rounds Sort Prop.

Combined Scheme flow_mutind
  from eval_min, eval_operands_min, eval_all_min, eval_some_min,
       exec_min, exec_block_min, rounds_min.

(** Splits on the layer calls of a computation [H] that raised: each call of
    the library [call] returned, or it is the one that raised. *)
Ltac blame_library call H :=
  repeat match type of H with
         | context [call ?l ?a] =>
             let E := fresh "E" in
             destruct (call l a) eqn:E; simpl in H;
             [ | injection H as <-; now (exists l, a) ]
         end;
  try discriminate H.

(** Runs an expression all of whose operations return; of the operands of a
    node that need not evaluate them all (a conditional expression, [and],
    [or]) it runs the first two. *)
Ltac returns :=
  lazymatch goal with
  | |- eval _ _ _ None => eapply eval_operation; returns
  | |- eval_operands _ _ _ _ =>
      first [ apply operands_strict; [reflexivity | cbn; returns]
            | apply operands_lazy; [reflexivity | cbn; returns] ]
  | |- eval_all _ [] _ _ => apply all_nil
  | |- eval_all _ (_ :: _) _ _ => eapply all_next; [returns | returns]
  | |- eval_some _ (_ :: _ :: _) _ _ =>
      eapply some_next;
      [ left; reflexivity
      | returns
      | eapply some_next; [right; left; reflexivity | returns | apply some_nil] ]
  end.

(** Runs a simple statement to its end. *)
Ltac finishes :=
  lazymatch goal with
  | |- exec ?program ?s _ _ =>
      eapply (exec_simple program s _ None); [reflexivity | cbn; returns]
  end.

(** * Properties of the embedded functions *)

(** ** Python built-ins *)

Lemma bind_ok {A B : Type} (c : result A) (k : A -> result B) (b : B) :
  bind c k = Ok b -> exists a, c = Ok a /\ k a = Ok b.
Proof.
  destruct c as [a|e]; simpl; intros H; [exists a; auto | discriminate].
Qed.

Lemma bind_raised {A B : Type} (c : result A) (k : A -> result B) (e : exn) :
  bind c k = Raised e -> c = Raised e \/ exists a, c = Ok a /\ k a = Raised e.
Proof.
  destruct c as [a|e']; simpl; intros H; [right; exists a; auto | left; congruence].
Qed.

Lemma py_range_length (start stop : Z) :
  List.length (py_range start stop) = Z.to_nat (stop - start).
Proof.
  unfold py_range. now rewrite length_map, length_seq.
Qed.


Lemma py_getitem_nat {A : Type} (l : list A) (k : nat) (a : A) :
  nth_error l k = Some a -> py_getitem l (Z.of_nat k) = Ok a.
Proof.
  intros H. unfold py_getitem.
  assert (Hlt : (k < List.length l)%nat) by (apply nth_error_Some; congruence).
  destruct (Z.ltb_spec (Z.of_nat k) 0); [lia|].
  destruct (Z.leb_spec 0 (Z.of_nat k)); [|lia].
  destruct (Z.ltb_spec (Z.of_nat k) (Z.of_nat (List.length l))); [|lia].
  simpl. now rewrite Nat2Z.id, H.
Qed.

Lemma py_getitem_in_range {A : Type} (l : list A) (i : Z) :
  0 <= i < Z.of_nat (List.length l) -> exists a, py_getitem l i = Ok a /\ nth_error l (Z.to_nat i) = Some a.
Proof.
  intros Hi.
  destruct (nth_error l (Z.to_nat i)) as [a|] eqn:Hn.
  - exists a. split; [|reflexivity].
    rewrite <- (Z2Nat.id i) by lia. now apply py_getitem_nat.
  - apply nth_error_None in Hn. lia.
Qed.

(** ** The model function and the integration loop *)

Section TrainingFacts.

Context {Tensor : Type}.
Variable call : Layer -> list Tensor -> result Tensor.

Lemma unet2_raised (x : Tensor) (e : exn) :
  unet2 call x = Raised e -> library_raised call e.
Proof.
  intros H. unfold unet2, app2, app in H. simpl in H.
  blame_library call H.
Qed.

Lemma well_formed_readable (s : Settings) (x_in : PyArg Tensor) (step : Z) :
  well_formed s x_in -> 0 <= step < integration_steps s -> readable s x_in step.
Proof.
  intros Hwf Hstep Hsolar. destruct x_in as [t|ts]; simpl in *; [discriminate|].
  rewrite Hsolar in Hwf.
  destruct (py_getitem_in_range ts step) as [a [Ha _]]; [lia|].
  now exists a.
Qed.

Lemma next_input_raised (s : Settings) (x_in : PyArg Tensor) (step : Z) (xo : Tensor)
    (e : exn) :
  readable s x_in step ->
  next_input call s x_in step xo = Raised e -> library_raised call e.
Proof.
  intros Hread H. unfold next_input in H.
  destruct (is_sequence x_in && input_solar s) eqn:Hsolar; [|discriminate].
  destruct (Hread Hsolar) as [t Ht]. rewrite Ht in H. simpl in H.
  blame_library call H.
Qed.

Lemma integration_step_spec (s : Settings) (x_in : PyArg Tensor) (outputs : list Tensor)
    (k : nat) (prev : Tensor) :
  nth_error outputs k = Some prev ->
  readable s x_in (Z.of_nat (S k)) ->
  match integration_step call s x_in (unet2 call) outputs (Z.of_nat (S k)) with
  | Ok outputs' =>
      exists xo y, next_input call s x_in (Z.of_nat (S k)) prev = Ok xo
                   /\ unet2 call xo = Ok y /\ outputs' = outputs ++ [y]
  | Raised e => library_raised call e
  end.
Proof.
  intros Hprev Hread. unfold integration_step.
  replace (Z.of_nat (S k) - 1) with (Z.of_nat k) by lia.
  rewrite (py_getitem_nat _ _ _ Hprev). cbn [bind].
  destruct (next_input call s x_in (Z.of_nat (S k)) prev) as [xo|e] eqn:Hnext; cbn [bind].
  - destruct (unet2 call xo) as [y|e] eqn:Hy; cbn [bind].
    + now exists xo, y.
    + eapply unet2_raised; eassumption.
  - eapply next_input_raised; eassumption.
Qed.

Lemma fed_back_extend (s : Settings) (x_in : PyArg Tensor) (outputs ext : list Tensor)
    (n : nat) :
  (n <= List.length outputs)%nat ->
  fed_back call s x_in outputs n -> fed_back call s x_in (outputs ++ ext) n.
Proof.
  intros Hn H k Hk. destruct (H k Hk) as (prev & xo & y & H1 & H2 & H3 & H4).
  exists prev, xo, y. repeat split; try assumption.
  - rewrite nth_error_app1; [assumption | lia].
  - rewrite nth_error_app1; [assumption | lia].
Qed.

Lemma integration_loop (s : Settings) (x_in : PyArg Tensor) (m : nat) :
  forall (k : nat) (outputs : list Tensor),
    List.length outputs = S k ->
    fed_back call s x_in outputs (S k) ->
    (forall j, (S k <= j < S k + m)%nat -> readable s x_in (Z.of_nat j)) ->
    match for_each (map Z.of_nat (seq (S k) m))
                   (integration_step call s x_in (unet2 call)) outputs with
    | Ok outputs' =>
        List.length outputs' = (S k + m)%nat
        /\ fed_back call s x_in outputs' (S k + m)
        /\ exists ext, outputs' = outputs ++ ext
    | Raised e => library_raised call e
    end.
Proof.
  induction m as [|m IH]; intros k outputs Hlen Hfed Hread; cbn [seq map for_each].
  - rewrite Nat.add_0_r. repeat split; try assumption.
    exists []. now rewrite app_nil_r.
  - destruct (nth_error outputs k) as [prev|] eqn:Hprev;
      [| apply nth_error_None in Hprev; lia].
    assert (Hstep := integration_step_spec s x_in outputs k prev Hprev
                       (Hread (S k) ltac:(lia))).
    destruct (integration_step call s x_in (unet2 call) outputs (Z.of_nat (S k)))
      as [outputs1|e]; cbn [bind]; [|assumption].
    destruct Hstep as (xo & y & Hxo & Hy & ->).
    specialize (IH (S k) (outputs ++ [y])).
    destruct (for_each (map Z.of_nat (seq (S (S k)) m))
                (integration_step call s x_in (unet2 call)) (outputs ++ [y]))
      as [outputs'|e].
    + destruct IH as (Hlen' & Hfed' & ext & ->).
      * rewrite length_app. simpl. lia.
      * intros j Hj. destruct (Nat.eq_dec j k) as [->|Hne].
        -- exists prev, xo, y. repeat split; try assumption.
           ++ rewrite nth_error_app1; [assumption | lia].
           ++ rewrite nth_error_app2 by lia. rewrite Hlen, Nat.sub_diag. reflexivity.
        -- refine (fed_back_extend s x_in outputs [y] (S k) _ Hfed j _); lia.
      * intros j Hj. apply Hread. lia.
      * repeat split.
        -- lia.
        -- replace (S k + S m)%nat with (S (S k) + m)%nat by lia. assumption.
        -- exists ([y] ++ ext). now rewrite app_assoc.
    + apply IH.
      * rewrite length_app. simpl. lia.
      * intros j Hj. destruct (Nat.eq_dec j k) as [->|Hne].
        -- exists prev, xo, y. repeat split; try assumption.
           ++ rewrite nth_error_app1; [assumption | lia].
           ++ rewrite nth_error_app2 by lia. rewrite Hlen, Nat.sub_diag. reflexivity.
        -- refine (fed_back_extend s x_in outputs [y] (S k) _ Hfed j _); lia.
      * intros j Hj. apply Hread. lia.
Qed.

Lemma py_range_steps (n : Z) :
  py_range 1 n = map Z.of_nat (seq 1 (Z.to_nat (n - 1))).
Proof.
  unfold py_range. rewrite <- seq_shift, map_map.
  apply map_ext. intros k. lia.
Qed.

(** The loop appends one output per pass, whatever the input. *)
Lemma for_each_length (s : Settings) (x_in : PyArg Tensor)
    (f : Tensor -> result Tensor) (steps : list Z) :
  forall outputs outputs',
    for_each steps (integration_step call s x_in f) outputs = Ok outputs' ->
    List.length outputs' = (List.length outputs + List.length steps)%nat.
Proof.
  induction steps as [|step steps IH]; intros outputs outputs' H; simpl in H.
  - injection H as <-. simpl. lia.
  - apply bind_ok in H. destruct H as (outputs1 & Hstep & Hrest).
    apply IH in Hrest. rewrite Hrest. simpl.
    unfold integration_step in Hstep.
    apply bind_ok in Hstep. destruct Hstep as (xo & _ & Hstep).
    apply bind_ok in Hstep. destruct Hstep as (xo' & _ & Hstep).
    apply bind_ok in Hstep. destruct Hstep as (y & _ & Hstep).
    injection Hstep as <-. rewrite length_app. simpl. lia.
Qed.

Lemma complete_model_run (s : Settings) (x_in : PyArg Tensor) :
  1 <= integration_steps s ->
  well_formed s x_in ->
  match complete_model call s x_in with
  | Ok outputs =>
      Z.of_nat (List.length outputs) = integration_steps s
      /\ (exists xi y, first_input x_in = Ok xi /\ unet2 call xi = Ok y
                       /\ nth_error outputs 0 = Some y)
      /\ fed_back call s x_in outputs (List.length outputs)
  | Raised e => library_raised call e
  end.
Proof.
  intros Hn Hwf. unfold complete_model. simpl.
  assert (Hfirst : exists xi, first_input x_in = Ok xi).
  { destruct x_in as [t|ts]; simpl in *; [now exists t|].
    destruct (py_getitem_in_range ts 0) as [a [Ha _]]; [|now exists a].
    destruct (input_solar s); lia. }
  destruct Hfirst as [xi Hxi]. rewrite Hxi. simpl.
  destruct (unet2 call xi) as [y|e] eqn:Hy; simpl; [|eapply unet2_raised; eassumption].
  rewrite py_range_steps.
  pose proof (integration_loop s x_in (Z.to_nat (integration_steps s - 1)) 0 [y]
                eq_refl) as Hloop.
  destruct (for_each (map Z.of_nat (seq 1 (Z.to_nat (integration_steps s - 1))))
              (integration_step call s x_in (unet2 call)) [y]) as [outputs|e].
  - destruct Hloop as (Hlen & Hfed & ext & ->).
    + intros k Hk. lia.
    + intros j Hj. apply well_formed_readable; [assumption | lia].
    + repeat split.
      * rewrite Hlen. lia.
      * exists xi, y. auto.
      * rewrite Hlen. assumption.
  - apply Hloop.
    + intros k Hk. lia.
    + intros j Hj. apply well_formed_readable; [assumption | lia].
Qed.

Lemma complete_model_length (s : Settings) (x_in : PyArg Tensor) (outputs : list Tensor) :
  complete_model call s x_in = Ok outputs ->
  Z.of_nat (List.length outputs) = Z.max 1 (integration_steps s).
Proof.
  unfold complete_model. simpl. intros H.
  apply bind_ok in H. destruct H as (xi & _ & H).
  apply bind_ok in H. destruct H as (y & _ & H).
  apply for_each_length in H. rewrite H, py_range_length. simpl. lia.
Qed.

End TrainingFacts.

(** ** The inputs of the model *)

Lemma list_comp_length {X Y : Type} (f : X -> result Y) (items : list X) :
  forall ys, list_comp f items = Ok ys -> List.length ys = List.length items.
Proof.
  induction items as [|x items IH]; intros ys H; simpl in H.
  - injection H as <-. reflexivity.
  - apply bind_ok in H. destruct H as (y & _ & H).
    apply bind_ok in H. destruct H as (ys' & Hys' & H).
    injection H as <-. simpl. f_equal. now apply IH.
Qed.

Lemma list_comp_raised {X Y : Type} (f : X -> result Y) (items : list X) (e : exn) :
  list_comp f items = Raised e -> exists x, In x items /\ f x = Raised e.
Proof.
  induction items as [|x items IH]; intros H; simpl in H; [discriminate|].
  destruct (f x) as [y|e'] eqn:Hx; simpl in H.
  - destruct (list_comp f items) as [ys|e'']; simpl in H; [discriminate|].
    destruct IH as (x' & Hin & Hx'); [congruence|].
    exists x'. split; [now right | assumption].
  - exists x. split; [now left | congruence].
Qed.

Lemma solar_inputs_raised {Tensor : Type} (call : Layer -> list Tensor -> result Tensor)
    (s : Settings) (e : exn) :
  solar_inputs call s = Raised e -> library_raised call e.
Proof.
  intros H. apply list_comp_raised in H. destruct H as (d & _ & H).
  now exists (Input (insolation_shape s) (solar_name d)), [].
Qed.

Lemma input_names_length (s : Settings) :
  List.length (input_names s) = S (Z.to_nat (integration_steps s - 1)).
Proof.
  unfold input_names. rewrite length_app, length_map, py_range_length. reflexivity.
Qed.

(** ['%d' % i] on small numbers. *)
Example percent_d_digits :
  percent_d 0 = "0" /\ percent_d 1 = "1" /\ percent_d 10 = "10" /\ percent_d 123 = "123"
  /\ percent_d (-3) = "-3".
Proof. repeat split. Qed.

(** The notebook's own construction, in a library whose calls all return:
    [Model] is given two inputs and two outputs. *)
Example the_tutorial_model :
  exists ins outs,
    model_arguments keras tutorial = Ok (ins, outs)
    /\ ins = Sequence [main_placeholder; solar_placeholder]
    /\ List.length outs = 2%nat.
Proof.
  destruct (model_arguments keras tutorial) as [[ins outs]|e] eqn:H.
  - exists ins, outs. split; [reflexivity|].
    vm_compute in H. injection H as <- <-. split; reflexivity.
  - vm_compute in H. discriminate H.
Qed.

(** In a library whose output convolution raises, [complete_model] ends with
    what the layer raised. *)
Example a_rejected_output_propagates :
  complete_model keras_rejecting_output tutorial
    (Sequence [main_placeholder; solar_placeholder])
  = Raised (LibraryError "ValueError").
Proof. vm_compute. reflexivity. Qed.

(** * Exceptions in code without handlers *)

Lemma quiet_nil : quiet [].
Proof. intros ev []. Qed.

Lemma quiet_app (tr1 tr2 : list event) : quiet tr1 -> quiet tr2 -> quiet (tr1 ++ tr2).
Proof.
  intros H1 H2 ev Hin. apply in_app_or in Hin. destruct Hin; auto.
Qed.

Lemma unhandled_app (tr1 tr2 : list event) (r : option exn) :
  quiet tr1 -> unhandled tr2 r -> unhandled (tr1 ++ tr2) r.
Proof.
  intros H1 H2. destruct r as [x|]; simpl in *.
  - destruct H2 as (tr0 & st & -> & Hq).
    exists (tr1 ++ tr0), st. split; [now rewrite app_assoc | now apply quiet_app].
  - now apply quiet_app.
Qed.

Lemma unhandled_snoc (tr : list event) (st : site) (r : option exn) :
  quiet tr -> unhandled (tr ++ [(st, r)]) r.
Proof.
  intros Hq. destruct r as [x|]; simpl.
  - now exists tr, st.
  - apply quiet_app; [assumption|]. intros ev [<-|[]]. reflexivity.
Qed.

Lemma raised_ends (r : option exn) (out : outcome) :
  raised out = None -> raised (ends r out) = r.
Proof. destruct r; simpl; auto. Qed.

(** In a run where nothing is handled, an operation that raised is the last
    one, and what it raised is what the run ends with. *)
Lemma unhandled_event (tr : list event) (r : option exn) (st : site) (x : exn) :
  unhandled tr r -> In (st, Some x) tr ->
  r = Some x /\ exists tr0, tr = tr0 ++ [(st, Some x)] /\ quiet tr0.
Proof.
  intros H Hin. destruct r as [y|]; simpl in H.
  - destruct H as (tr0 & st' & -> & Hq).
    apply in_app_or in Hin. destruct Hin as [Hin|[Heq|[]]].
    + apply Hq in Hin. discriminate.
    + injection Heq as -> ->. split; [reflexivity|]. now exists tr0.
  - apply H in Hin. discriminate.
Qed.

Section FlowFacts.

Variable program : list (list stmt).

(** No function the program defines has a handler or raises by itself. *)
Hypothesis plain_definitions :
  forall name params body,
    In (FunctionDef name params body) (statements_of program) -> forallb plain body = true.

Lemma block_nil_inv (tr : list event) (out : outcome) :
  exec_block program [] tr out -> tr = [] /\ out = Finished.
Proof. intros H. inversion H. auto. Qed.

Lemma plain_runs_unhandled :
  (forall e tr r, eval program e tr r -> unhandled tr r)
  /\ (forall e tr r, eval_operands program e tr r -> unhandled tr r)
  /\ (forall es tr r, eval_all program es tr r -> unhandled tr r)
  /\ (forall es tr r, eval_some program es tr r -> unhandled tr r)
  /\ (forall s tr out, exec program s tr out -> plain s = true -> unhandled tr (raised out))
  /\ (forall ss tr out,
        exec_block program ss tr out -> forallb plain ss = true -> unhandled tr (raised out))
  /\ (forall header body tr out,
        rounds program header body tr out -> forallb plain body = true ->
        unhandled tr (raised out)).
Proof.
  apply flow_mutind; intros; simpl in *;
    try discriminate;
    try assumption;
    try apply quiet_nil;
    try (apply unhandled_snoc; assumption).
  - (* a call into a defined function *)
    apply unhandled_app; [assumption|]. eauto.
  - apply unhandled_app; assumption.
  - apply unhandled_app; assumption.
  - (* a simple statement *)
    rewrite raised_ends by (destruct s; reflexivity).
    apply unhandled_snoc. assumption.
  - (* class body *)
    apply unhandled_app; auto.
  - (* if, then *)
    apply andb_prop in H3. destruct H3. apply unhandled_app; auto.
  - (* if, else *)
    apply andb_prop in H3. destruct H3. apply unhandled_app; auto.
  - (* for *)
    apply andb_prop in H5. destruct H5 as [Hbody Horelse].
    apply unhandled_app; [assumption|].
    destruct out; simpl in *.
    + apply unhandled_app; auto.
    + apply block_nil_inv in H3. destruct H3 as [-> ->].
      rewrite app_nil_r. auto.
    + apply block_nil_inv in H3. destruct H3 as [-> ->].
      rewrite app_nil_r. auto.
  - (* while *)
    apply andb_prop in H3. destruct H3 as [Hbody Horelse].
    destruct out; simpl in *.
    + apply unhandled_app; auto.
    + apply block_nil_inv in H1. destruct H1 as [-> ->].
      rewrite app_nil_r. auto.
    + apply block_nil_inv in H1. destruct H1 as [-> ->].
      rewrite app_nil_r. auto.
  - (* block, next *)
    apply andb_prop in H3. destruct H3. apply unhandled_app; auto.
  - (* block, stops *)
    apply andb_prop in H2. destruct H2. auto.
  - (* rounds, end *)
    rewrite raised_ends by reflexivity. assumption.
  - (* rounds, next *)
    apply unhandled_app; [assumption|]. apply unhandled_app; auto.
  - (* rounds, stops *)
    apply unhandled_app; auto.
Qed.

(** Whatever an operation raises while a plain block runs leaves the block
    as it is, and the block stops there. *)
Lemma plain_block_propagates (cell : list stmt) (tr : list event) (out : outcome)
    (st : site) (x : exn) :
  forallb plain cell = true ->
  exec_block program cell tr out ->
  In (st, Some x) tr ->
  out = Propagated x /\ exists tr0, tr = tr0 ++ [(st, Some x)] /\ quiet tr0.
Proof.
  intros Hplain Hrun Hin.
  destruct plain_runs_unhandled as (_ & _ & _ & _ & _ & Hblock & _).
  destruct (unhandled_event _ _ _ _ (Hblock _ _ _ Hrun Hplain) Hin) as [Hr Hlast].
  split; [|assumption].
  destruct out; simpl in Hr; congruence.
Qed.

(** An exception that leaves a plain block was raised by an operation. *)
Lemma plain_block_origin (cell : list stmt) (tr : list event) (x : exn) :
  forallb plain cell = true ->
  exec_block program cell tr (Propagated x) ->
  exists tr0 st, tr = tr0 ++ [(st, Some x)] /\ quiet tr0.
Proof.
  intros Hplain Hrun.
  destruct plain_runs_unhandled as (_ & _ & _ & _ & _ & Hblock & _).
  exact (Hblock _ _ _ Hrun Hplain).
Qed.

End FlowFacts.

(** * Statements about the notebooks *)




(** C4, as amended.  The repository's own code introduces an invariant:
    whenever [complete_model] returns, the list it returns has
    [integration_steps] elements (one element when [integration_steps] is
    below 1), and each pass of its loop that completes adds exactly one
    element to [outputs]. *)
Theorem complete_model_length_invariant {Tensor : Type}
    (call : Layer -> list Tensor -> result Tensor) (s : Settings) (x_in : PyArg Tensor) :
  (forall outputs, complete_model call s x_in = Ok outputs ->
     Z.of_nat (List.length outputs) = Z.max 1 (integration_steps s))
  /\ (forall model_function outputs step outputs',
        integration_step call s x_in model_function outputs step = Ok outputs' ->
        List.length outputs' = S (List.length outputs)).
Proof.
  split.
  - apply complete_model_length.
  - intros f outputs step outputs' H.
    rewrite (for_each_length call s x_in f [step] outputs outputs').
    + simpl. lia.
    + simpl. now rewrite H.
Qed.

Lemma complete_model_length_invariant_witness :
  exists outputs,
    complete_model keras tutorial (Single main_placeholder) = Ok outputs
    /\ Z.of_nat (List.length outputs) = 2.
Proof.
  destruct (complete_model keras tutorial (Single main_placeholder)) as [outputs|e] eqn:H.
  - exists outputs. split; [reflexivity|].
    exact (proj1 (complete_model_length_invariant keras tutorial (Single main_placeholder))
             outputs H).
  - vm_compute in H. discriminate H.
Defined.

(** C4, as stated, fails: the length of the list is a property every result
    of [complete_model] has and the empty list has not. *)
Lemma complete_model_has_an_invariant : ~ no_invariant.
Proof.
  intros H.
  specialize (H (fun s outputs => Z.of_nat (List.length outputs) = Z.max 1 (integration_steps s))).
  specialize (H (fun s x_in outputs => complete_model_length keras s x_in outputs) tutorial []).
  discriminate H.
Qed.



(** C10.  [Model] is given a single input tensor exactly when [input_solar]
    (that is, [integration_steps > 1 and add_solar]) is false, and a list of
    exactly [integration_steps] tensors, the main input followed by
    [integration_steps - 1] solar inputs, when it is true; so, when
    [add_solar] is false and [integration_steps > 1], [input_names], which
    is what [tf_data_generator] is given, is longer than the model has
    inputs.  An exception while the inputs are made is one an [Input] call
    raised. *)
Theorem model_inputs {Tensor : Type}
    (call : Layer -> list Tensor -> result Tensor) (s : Settings) :
  input_solar s = (1 <? integration_steps s) && add_solar s
  /\ (library_returns call -> exists ins, inputs call s = Ok ins)
  /\ (forall e, inputs call s = Raised e -> library_raised call e)
  /\ (forall ins, inputs call s = Ok ins ->
        exists main,
          main_input call s = Ok main
          /\ (input_solar s = false -> ins = Single main)
          /\ (input_solar s = true ->
                exists solar,
                  solar_inputs call s = Ok solar
                  /\ ins = Sequence (main :: solar)
                  /\ Z.of_nat (List.length solar) = integration_steps s - 1
                  /\ Z.of_nat (number_of_inputs ins) = integration_steps s))
  /\ (add_solar s = false -> 1 < integration_steps s ->
        forall ins, inputs call s = Ok ins ->
          (number_of_inputs ins < List.length (input_names s))%nat).
Proof.
  split; [reflexivity|].
  assert (Hshape : forall ins, inputs call s = Ok ins ->
            exists main,
              main_input call s = Ok main
              /\ (input_solar s = false -> ins = Single main)
              /\ (input_solar s = true ->
                    exists solar,
                      solar_inputs call s = Ok solar
                      /\ ins = Sequence (main :: solar)
                      /\ Z.of_nat (List.length solar) = integration_steps s - 1
                      /\ Z.of_nat (number_of_inputs ins) = integration_steps s)).
  { intros ins H. unfold inputs, input_layers in H.
    destruct (main_input call s) as [main|e] eqn:Hmain; simpl in H; [|discriminate].
    exists main. split; [reflexivity|].
    destruct (input_solar s) eqn:Hsolar; simpl in H.
    - destruct (solar_inputs call s) as [solar|e] eqn:Hs; simpl in H; [|discriminate].
      injection H as <-. split; [discriminate|]. intros _.
      exists solar. repeat split.
      + apply list_comp_length in Hs. rewrite Hs, py_range_length.
        unfold input_solar in Hsolar. apply andb_prop in Hsolar.
        destruct Hsolar as [Hgt _]. apply Z.ltb_lt in Hgt. lia.
      + apply list_comp_length in Hs. simpl. rewrite Hs, py_range_length.
        unfold input_solar in Hsolar. apply andb_prop in Hsolar.
        destruct Hsolar as [Hgt _]. apply Z.ltb_lt in Hgt. lia.
    - injection H as <-. split; [reflexivity | discriminate]. }
  assert (Hraised : forall e, inputs call s = Raised e -> library_raised call e).
  2: { split; [|split; [exact Hraised | split; [exact Hshape|]]].
       - intros Hlib. destruct (inputs call s) as [ins|e] eqn:H; [now exists ins|].
         destruct (Hraised e eq_refl) as (layer & inbound & Hraise).
         destruct (Hlib layer inbound) as [t Ht]. congruence.
       - intros Hadd Hgt ins H.
         destruct (Hshape ins H) as (main & _ & Hsingle & _).
         rewrite Hsingle by (unfold input_solar; rewrite Hadd; apply andb_false_r).
         rewrite input_names_length. simpl. lia. }
  - intros e H. unfold inputs, input_layers in H.
    destruct (main_input call s) as [main|e'] eqn:Hmain; simpl in H.
    + destruct (input_solar s); simpl in H; [|discriminate].
      destruct (solar_inputs call s) as [solar|e'] eqn:Hs; simpl in H; [discriminate|].
      injection H as <-. eapply solar_inputs_raised; eassumption.
    + injection H as <-. now exists (Input (cs s) "main_input"), [].
Qed.

Lemma model_inputs_witness :
  inputs keras tutorial = Ok (Sequence [main_placeholder; solar_placeholder])
  /\ inputs keras no_solar = Ok (Single (placeholder (cs no_solar) "main_input"))
  /\ (number_of_inputs (Single (placeholder (cs no_solar) "main_input"))
      < List.length (input_names no_solar))%nat.
Proof.
  split; [reflexivity|]. split; [reflexivity|].
  apply (proj2 (proj2 (proj2 (proj2 (model_inputs keras no_solar))))).
  - reflexivity.
  - simpl. lia.
  - reflexivity.
Defined.

(** ** Runs of the cells *)

Lemma cells_are_plain : forallb (forallb plain) code_cells = true.
Proof. vm_compute. reflexivity. Qed.

Lemma definitions_are_plain :
  forall name params body,
    In (FunctionDef name params body) (statements_of code_cells) -> forallb plain body = true.
Proof.
  assert (H : forallb (fun s => match s with
                                | FunctionDef _ _ body => forallb plain body
                                | _ => true
                                end) (statements_of code_cells) = true)
    by (vm_compute; reflexivity).
  intros name params body Hin.
  rewrite forallb_forall in H. exact (H _ Hin).
Qed.

(** With a handler the propagation fails: the relation has a run of
    [try: era.retrieve(...) / except: pass] in which the call raises and the
    statement still runs to its end. *)
Example a_handler_stops_the_exception :
  exists tr,
    exec code_cells (Try [Expr retrieve_call] [(None, [Pass])] [] []) tr Finished
    /\ In (AtExpr retrieve_call, Some (LibraryError "HTTPError")) tr.
Proof.
  eexists. split.
  - eapply exec_try_caught with (x := LibraryError "HTTPError").
    + apply block_stops; [|discriminate].
      apply exec_simple_raises; [reflexivity|].
      apply all_raises. eapply eval_operation. returns.
    + left. reflexivity.
    + eapply block_next; [|apply block_nil].
      apply (exec_simple code_cells Pass [] None); [reflexivity | apply all_nil].
  - cbn. repeat (try (left; reflexivity); right).
Qed.

(** Code cell 19 of the training notebook has a run in which [time.time()]
    returns and [dlwp.fit_generator] raises: the cell ends with that
    exception and [end_time] is never assigned. *)
Example fit_generator_stops_the_cell :
  exists tr,
    exec_block code_cells training_cell_19 tr (Propagated (LibraryError "ResourceExhausted"))
    /\ In (AtExpr fit_call, Some (LibraryError "ResourceExhausted")) tr
    /\ forall r, ~ In (AtStmt end_time_assignment, r) tr.
Proof.
  eexists. split; [|split].
  - eapply block_next; [finishes|].
    eapply block_next; [finishes|].
    apply block_stops; [|discriminate].
    apply exec_simple_raises; [reflexivity|].
    apply all_raises. eapply eval_operation. returns.
  - cbn. repeat (try (left; reflexivity); right).
  - intros r H. cbn in H.
    repeat (destruct H as [H|H]; [discriminate H|]). exact H.
Qed.

(** The cell that builds the model has a run in which the first layer call
    inside [unet2] raises: the exception leaves [unet2], then
    [complete_model], then the cell, as it was raised. *)
Example a_layer_error_leaves_the_model_cell :
  exists tr,
    exec_block code_cells training_cell_15 tr (Propagated (LibraryError "ValueError"))
    /\ In (AtExpr (Call (Name "cube_padding_1") [Name "x"] []),
           Some (LibraryError "ValueError")) tr.
Proof.
  assert (Hunet2 : In (FunctionDef "unet2" ["x"] unet2_body) (statements_of code_cells))
    by (vm_compute; repeat (try (left; reflexivity); right)).
  assert (Hcomplete : In (FunctionDef "complete_model" ["x_in"] complete_model_body)
                         (statements_of code_cells))
    by (vm_compute; repeat (try (left; reflexivity); right)).
  eexists. split.
  - (* from tensorflow.keras.models import Model *)
    eapply block_next; [finishes|].
    (* if not input_solar: ... else: inputs = [main_input]; if input_solar: ... *)
    eapply block_next.
    { eapply exec_if_else; [returns|].
      eapply block_next; [finishes|].
      eapply block_next; [|apply block_nil].
      eapply exec_if_then; [returns|].
      eapply block_next; [finishes | apply block_nil]. }
    (* model = Model(inputs=inputs, outputs=complete_model(inputs)) *)
    apply block_stops; [|discriminate].
    apply exec_simple_raises; [reflexivity|]. cbn.
    apply all_raises. apply eval_operand_raises.
    apply operands_strict; [reflexivity|]. cbn.
    eapply all_next; [returns|]. eapply all_next; [returns|]. apply all_raises.
    (* complete_model(inputs) *)
    eapply (eval_call_defined code_cells _ _ _ _ _ _ _ _
              (Propagated (LibraryError "ValueError"))); [returns | exact Hcomplete |].
    unfold complete_model_body.
    eapply block_next; [finishes|].
    eapply block_next; [finishes|].
    eapply block_next; [finishes|].
    eapply block_next; [finishes|].
    (* outputs.append(model_function(xi)) *)
    apply block_stops; [|discriminate].
    apply exec_simple_raises; [reflexivity|]. cbn.
    apply all_raises. apply eval_operand_raises.
    apply operands_strict; [reflexivity|]. cbn.
    eapply all_next; [returns|]. apply all_raises.
    (* model_function(xi) enters unet2 *)
    eapply (eval_call_defined code_cells _ _ _ _ _ _ _ _
              (Propagated (LibraryError "ValueError"))); [returns | exact Hunet2 |].
    unfold unet2_body.
    (* x0 = cube_padding_1(x) *)
    apply block_stops; [|discriminate].
    apply exec_simple_raises; [reflexivity|]. cbn.
    apply all_raises. eapply eval_operation. returns.
  - cbn. repeat (try (left; reflexivity); right).
Qed.

(** C5.  No notebook code catches, transforms or handles an error: no cell
    holds a [try] or a [with], none raises by [raise] or [assert], none
    defines a class (so no error type); and in every run of every cell, when
    an operation, a library call among them, raises an exception, the run
    stops at that operation and the cell ends with that same exception, and
    an exception a cell ends with is one an operation raised. *)
Theorem errors_reach_the_environment :
  filter is_handler (statements_of code_cells) = []
  /\ filter is_raise (statements_of code_cells) = []
  /\ filter is_class_def (statements_of code_cells) = []
  /\ (forall cell tr out st x,
        In cell code_cells ->
        exec_block code_cells cell tr out ->
        In (st, Some x) tr ->
        out = Propagated x /\ exists tr0, tr = tr0 ++ [(st, Some x)] /\ quiet tr0)
  /\ (forall cell tr x,
        In cell code_cells ->
        exec_block code_cells cell tr (Propagated x) ->
        exists tr0 st, tr = tr0 ++ [(st, Some x)] /\ quiet tr0).
Proof.
  assert (Hplain : forall cell, In cell code_cells -> forallb plain cell = true).
  { intros cell Hin. pose proof cells_are_plain as H.
    rewrite forallb_forall in H. exact (H cell Hin). }
  split; [vm_compute; reflexivity|].
  split; [vm_compute; reflexivity|].
  split; [vm_compute; reflexivity|].
  split.
  - intros cell tr out st x Hin Hrun Hev.
    exact (plain_block_propagates code_cells definitions_are_plain
             cell tr out st x (Hplain cell Hin) Hrun Hev).
  - intros cell tr x Hin Hrun.
    exact (plain_block_origin code_cells definitions_are_plain
             cell tr x (Hplain cell Hin) Hrun).
Qed.

(** Code cell 4 of notebook 1 has a run in which [era.retrieve] raises, and
    a run with these operations can only end with what the call raised. *)
Lemma errors_reach_the_environment_witness :
  exists tr,
    In (AtExpr retrieve_call, Some (LibraryError "HTTPError")) tr
    /\ exec_block code_cells download_cell_4 tr (Propagated (LibraryError "HTTPError"))
    /\ forall out, exec_block code_cells download_cell_4 tr out ->
                   out = Propagated (LibraryError "HTTPError").
Proof.
  eexists. split; [|split].
  2: { apply block_stops; [|discriminate].
       apply exec_simple_raises; [reflexivity|].
       apply all_raises. eapply eval_operation. returns. }
  - apply in_or_app. right. left. reflexivity.
  - intros out Hrun.
    refine (proj1 (proj1 (proj2 (proj2 (proj2 errors_reach_the_environment)))
                     download_cell_4 _ out (AtExpr retrieve_call)
                     (LibraryError "HTTPError") _ Hrun _)).
    + do 3 right. left. reflexivity.
    + apply in_or_app. right. left. reflexivity.
Defined.

(** On a single tensor the loop is an iteration of the model function. *)
Lemma single_input_iterates {Tensor : Type}
    (call : Layer -> list Tensor -> result Tensor) (s : Settings) (x : Tensor)
    (outputs : list Tensor) :
  complete_model call s (Single x) = Ok outputs ->
  (exists y, unet2 call x = Ok y /\ nth_error outputs 0 = Some y)
  /\ (forall k y, nth_error outputs (S k) = Some y ->
        exists prev, nth_error outputs k = Some prev /\ unet2 call prev = Ok y).
Proof.
  intros Hout.
  destruct (Z_lt_le_dec (integration_steps s) 1) as [Hsmall|Hn].
  - unfold complete_model in Hout. simpl in Hout.
    apply bind_ok in Hout. destruct Hout as (y & Hy & Hout).
    assert (Hempty : py_range 1 (integration_steps s) = []).
    { apply length_zero_iff_nil. rewrite py_range_length. lia. }
    rewrite Hempty in Hout. simpl in Hout. injection Hout as <-.
    split; [now exists y|].
    intros k y' Hk. destruct k; discriminate Hk.
  - pose proof (complete_model_run call s (Single x) Hn I) as Hrun.
    rewrite Hout in Hrun. destruct Hrun as (_ & (xi & y & Hxi & Hy & H0) & Hfed).
    simpl in Hxi. injection Hxi as <-.
    split; [now exists y|].
    intros k y' Hk.
    destruct (Hfed k) as (prev & xo & y'' & H1 & H2 & H3 & H4).
    + apply nth_error_Some. congruence.
    + unfold next_input in H2. simpl in H2. injection H2 as <-.
      exists prev. split; [assumption | congruence].
Qed.

(** C1, as amended.  The repository's own code defines exactly two
    functions, both in the training notebook, and no lambda and no class:
    [unet2], a straight line of layer calls with no loop and no branch, and
    [complete_model], which holds a loop and performs an iteration: on a
    single tensor its first output is the model function applied to the
    input and every later output is the model function applied to the
    output before it.  Every other call of the notebooks starts from a name
    that is imported or built in, or from an object an imported function
    returned, but for the method calls on the notebook's own string
    [cnn_model_name] and list [outputs] and the call of [model_function],
    the function [complete_model] looks up in [globals()]. *)
Theorem functions_of_the_notebooks :
  defined_functions code_cells = ["unet2"; "complete_model"]
  /\ defined_functions download_notebook = []
  /\ count_exprs is_lambda code_cells = 0%nat
  /\ count_statements is_class_def code_cells = 0%nat
  /\ option_map straight_line (function_body code_cells "unet2") = Some true
  /\ option_map (fun body => List.length (filter is_loop (cell_statements body)))
                (function_body code_cells "complete_model") = Some 1%nat
  /\ filter (fun name => negb (external code_cells name)) (callee_roots code_cells)
     = ["cnn_model_name"; "outputs"; "model_function"; "complete_model"]
  /\ map (provenance_of code_cells)
         ["cnn_model_name"; "outputs"; "model_function"; "complete_model"]
     = [LocalValue (Str "unet2");
        LocalValue (ListE []);
        LocalValue (Subscript (Call (Name "globals") [] []) (Name "cnn_model_name"));
        DefinedHere]
  /\ (forall (Tensor : Type) (call : Layer -> list Tensor -> result Tensor)
             (s : Settings) (x : Tensor) (outputs : list Tensor),
        complete_model call s (Single x) = Ok outputs ->
        (exists y, unet2 call x = Ok y /\ nth_error outputs 0 = Some y)
        /\ (forall k y, nth_error outputs (S k) = Some y ->
              exists prev, nth_error outputs k = Some prev /\ unet2 call prev = Ok y)).
Proof.
  repeat (split; [vm_compute; reflexivity|]).
  intros Tensor call s x outputs. apply single_input_iterates.
Qed.

Lemma functions_of_the_notebooks_witness :
  exists y1 y2,
    complete_model keras tutorial (Single main_placeholder) = Ok [y1; y2]
    /\ unet2 keras main_placeholder = Ok y1
    /\ unet2 keras y1 = Ok y2.
Proof.
  destruct (complete_model keras tutorial (Single main_placeholder))
    as [[|y1 [|y2 [|y3 rest]]]|e] eqn:Hout;
    try (vm_compute in Hout; discriminate Hout).
  destruct (proj2 (proj2 (proj2 (proj2 (proj2 (proj2 (proj2 (proj2
              functions_of_the_notebooks)))))))
              KerasTensor keras tutorial main_placeholder [y1; y2] Hout)
    as ((y & Hy & H0) & Hnext).
  destruct (Hnext 0%nat y2 eq_refl) as (prev & Hprev & Hy2).
  injection H0 as <-. injection Hprev as <-.
  now exists y1, y2.
Defined.

(** C1, as stated, fails: [complete_model], which the training notebook
    defines and calls, is not a straight line of calls. *)
Lemma complete_model_is_an_algorithm : ~ no_algorithm_of_its_own code_cells.
Proof.
  intros H.
  destruct (function_body code_cells "complete_model") as [body|] eqn:Hbody.
  - specialize (H "complete_model" body Hbody).
    vm_compute in Hbody. injection Hbody as <-.
    vm_compute in H. discriminate H.
  - vm_compute in Hbody. discriminate Hbody.
Qed.

(** C3, as amended.  Notebook 1 has no loop, branch, comprehension or
    conditional expression.  The training notebook introduces control flow
    and dataflow of its own: one [for] loop and five [if] statements, two
    list comprehensions and five conditional expressions; of these,
    [complete_model] holds the loop, one [if] and one conditional
    expression; and the graph [unet2] builds on the main input has two skip
    connections, each a [concatenate] whose second input also feeds its
    first. *)
Theorem control_flow_of_the_notebooks :
  count_statements is_loop download_notebook = 0%nat
  /\ count_statements is_branch download_notebook = 0%nat
  /\ count_exprs is_comprehension download_notebook = 0%nat
  /\ count_exprs is_conditional download_notebook = 0%nat
  /\ count_statements is_loop training_notebook = 1%nat
  /\ count_statements is_branch training_notebook = 5%nat
  /\ count_exprs is_comprehension training_notebook = 2%nat
  /\ count_exprs is_conditional training_notebook = 5%nat
  /\ option_map (fun body => (List.length (filter is_loop (cell_statements body)),
                              List.length (filter is_branch (cell_statements body)),
                              List.length (filter is_conditional (cell_exprs body))))
                (function_body code_cells "complete_model")
     = Some (1%nat, 1%nat, 1%nat)
  /\ exists graph,
       unet2 keras main_placeholder = Ok graph
       /\ map layer_of (skip_connections graph) = [concatenate (-1); concatenate (-1)].
Proof.
  repeat (split; [vm_compute; reflexivity|]).
  eexists. split; vm_compute; reflexivity.
Qed.

(** C3, as stated, fails: the cells hold a loop. *)
Lemma the_cells_hold_a_loop : ~ no_control_flow code_cells.
Proof.
  intros [H _].
  destruct (filter is_loop (statements_of code_cells)) as [|s rest] eqn:Hloops.
  - vm_compute in Hloops. discriminate Hloops.
  - assert (Hin : In s (filter is_loop (statements_of code_cells)))
      by (rewrite Hloops; now left).
    apply filter_In in Hin. destruct Hin as [Hin Hloop].
    destruct (H s Hin) as [Hno _]. congruence.
Qed.



(** C7.  The notebooks define no data structure of their own: no cell holds
    a class definition or calls a function that makes a type, and the
    labeled arrays, the model objects and the data generators they handle
    come from calls of functions imported from xarray, DLWP and Keras. *)
Theorem no_data_structure_of_its_own :
  count_statements is_class_def code_cells = 0%nat
  /\ forallb (fun path => negb (existsb (path_eqb path) type_makers))
             (callees code_cells) = true
  /\ (made_by code_cells "data" = Some ["xr"; "open_dataset"]
      /\ origin code_cells "xr" = Some "xarray")
  /\ (made_by code_cells "dlwp" = Some ["DLWPFunctional"]
      /\ origin code_cells "DLWPFunctional" = Some "DLWP.model")
  /\ (made_by code_cells "model" = Some ["Model"]
      /\ origin code_cells "Model" = Some "tensorflow.keras.models")
  /\ (made_by code_cells "generator" = Some ["ArrayDataGenerator"]
      /\ made_by code_cells "val_generator" = Some ["ArrayDataGenerator"]
      /\ origin code_cells "ArrayDataGenerator" = Some "DLWP.model")
  /\ (made_by code_cells "tf_train_data" = Some ["tf_data_generator"]
      /\ made_by code_cells "tf_val_data" = Some ["tf_data_generator"]
      /\ origin code_cells "tf_data_generator" = Some "DLWP.model")
  /\ (made_by code_cells "era" = Some ["ERA5Reanalysis"]
      /\ origin code_cells "ERA5Reanalysis" = Some "DLWP.data")
  /\ (made_by code_cells "pp" = Some ["Preprocessor"]
      /\ origin code_cells "Preprocessor" = Some "DLWP.model").
Proof.
  repeat split; vm_compute; reflexivity.
Qed.


(** * Further properties of the training notebook *)

(** ** The model function *)

(** X1.  [unet2] depends on the library only through the sixteen layers of
    [unet2_layers]: two libraries that agree on them give the same result on
    every input, so the nine convolutions the notebook creates beside them
    ([conv_2d_1_3], [conv_2d_2_3], [conv_2d_3], [conv_2d_3_2], [conv_2d_4],
    [conv_2d_4_2], [conv_2d_5_3], [conv_2d_6_3], [conv_2d_7_3]) never
    matter to it. *)
Theorem unet2_calls_its_layers_only {Tensor : Type}
    (call1 call2 : Layer -> list Tensor -> result Tensor) (x : Tensor) :
  (forall layer inbound, In layer unet2_layers -> call1 layer inbound = call2 layer inbound) ->
  unet2 call1 x = unet2 call2 x.
Proof.
  intros Hsame. unfold unet2, app2, app.
  repeat match goal with
         | |- context [call1 ?l ?a] =>
             rewrite (Hsame l a) by (cbn; repeat (try (left; reflexivity); right));
             destruct (call2 l a); cbn [bind]; [|reflexivity]
         end.
  reflexivity.
Qed.

(** A library in which exactly the convolutions [unet2] does not call raise. *)
Lemma unet2_calls_its_layers_only_witness :
  unet2 (fun layer inbound =>
           if is_convolution layer && negb (existsb (fun l => if Layer_eq_dec l layer
                                                              then true else false)
                                                    unet2_layers)
           then Raised (LibraryError "unused") else keras layer inbound)
        main_placeholder
  = unet2 keras main_placeholder.
Proof.
  apply unet2_calls_its_layers_only.
  intros layer inbound Hin. cbn in Hin.
  repeat (destruct Hin as [<-|Hin]; [reflexivity|]). destruct Hin.
Defined.

(** X2.  [unet2] raises nothing of its own: an exception it ends with was
    raised by a call of one of its sixteen layers, and it returns whenever
    the calls of these layers return. *)
Theorem unet2_raises_what_a_layer_raised {Tensor : Type}
    (call : Layer -> list Tensor -> result Tensor) (x : Tensor) :
  (forall e, unet2 call x = Raised e ->
     exists layer inbound, In layer unet2_layers /\ call layer inbound = Raised e)
  /\ ((forall layer inbound, In layer unet2_layers -> exists t, call layer inbound = Ok t) ->
      exists y, unet2 call x = Ok y).
Proof.
  assert (Hraise : forall e, unet2 call x = Raised e ->
            exists layer inbound, In layer unet2_layers /\ call layer inbound = Raised e).
  { intros e H. unfold unet2, app2, app in H. cbn [bind] in H.
    repeat match type of H with
           | context [call ?l ?a] =>
               let E := fresh "E" in
               destruct (call l a) eqn:E; cbn [bind] in H;
               [ | injection H as <-; exists l, a; split;
                   [cbn; repeat (try (left; reflexivity); right) | exact E] ]
           end.
    discriminate H. }
  split; [exact Hraise|].
  intros Hreturns. destruct (unet2 call x) as [y|e] eqn:H; [now exists y|].
  destruct (Hraise e eq_refl) as (layer & inbound & Hin & Hcall).
  destruct (Hreturns layer inbound Hin) as [t Ht]. congruence.
Qed.

Lemma unet2_raises_what_a_layer_raised_witness :
  exists layer inbound,
    In layer unet2_layers
    /\ keras_rejecting_output layer inbound = Raised (LibraryError "ValueError").
Proof.
  apply (proj1 (unet2_raises_what_a_layer_raised keras_rejecting_output main_placeholder)).
  vm_compute. reflexivity.
Defined.

(** ** The integration loop *)

Lemma for_each_app {S X : Type} (f : S -> X -> result S) (items1 items2 : list X) :
  forall st, for_each (items1 ++ items2) f st
             = bind (for_each items1 f st) (for_each items2 f).
Proof.
  induction items1 as [|x items1 IH]; intros st; simpl; [reflexivity|].
  destruct (f st x) as [st'|e]; simpl; [apply IH | reflexivity].
Qed.

Lemma for_each_ext {S X : Type} (f g : S -> X -> result S) (items : list X) :
  (forall st x, In x items -> f st x = g st x) ->
  forall st, for_each items f st = for_each items g st.
Proof.
  induction items as [|x items IH]; intros Hsame st; simpl; [reflexivity|].
  rewrite (Hsame st x) by now left.
  destruct (g st x) as [st'|e]; simpl; [|reflexivity].
  apply IH. intros st0 x0 Hin. apply Hsame. now right.
Qed.

(** The loop only appends to [outputs]. *)
Lemma for_each_extends {Tensor : Type} (call : Layer -> list Tensor -> result Tensor)
    (s : Settings) (x_in : PyArg Tensor) (f : Tensor -> result Tensor) (steps : list Z) :
  forall outputs outputs',
    for_each steps (integration_step call s x_in f) outputs = Ok outputs' ->
    exists more, outputs' = outputs ++ more /\ List.length more = List.length steps.
Proof.
  induction steps as [|step steps IH]; intros outputs outputs' H; simpl in H.
  - injection H as <-. exists []. now rewrite app_nil_r.
  - apply bind_ok in H. destruct H as (outputs1 & Hstep & Hrest).
    apply IH in Hrest. destruct Hrest as (more & -> & Hlen).
    unfold integration_step in Hstep.
    apply bind_ok in Hstep. destruct Hstep as (xo & _ & Hstep).
    apply bind_ok in Hstep. destruct Hstep as (xo' & _ & Hstep).
    apply bind_ok in Hstep. destruct Hstep as (y & _ & Hstep).
    injection Hstep as <-. exists (y :: more).
    split; [now rewrite <- app_assoc | simpl; now rewrite Hlen].
Qed.

Lemma py_getitem_nonneg {A : Type} (l : list A) (i : Z) :
  0 <= i ->
  py_getitem l i = match nth_error l (Z.to_nat i) with
                   | Some a => Ok a
                   | None => Raised IndexError
                   end.
Proof.
  intros Hi. unfold py_getitem.
  destruct (Z.ltb_spec i 0); [lia|].
  destruct (Z.leb_spec 0 i); [|lia]. simpl.
  destruct (Z.ltb_spec i (Z.of_nat (List.length l))); [reflexivity|].
  destruct (nth_error l (Z.to_nat i)) eqn:Hn; [|reflexivity].
  assert (Z.to_nat i < List.length l)%nat by (apply nth_error_Some; congruence). lia.
Qed.

Lemma py_range_nat (a c : Z) :
  0 <= a -> py_range a c = map Z.of_nat (seq (Z.to_nat a) (Z.to_nat (c - a))).
Proof.
  intros Ha. unfold py_range.
  assert (H : forall len k0,
             map (fun k => a + Z.of_nat k) (seq k0 len)
             = map Z.of_nat (seq (Z.to_nat a + k0) len)).
  { induction len as [|len IH]; intros k0; simpl; [reflexivity|].
    f_equal; [lia|]. rewrite IH. now rewrite Nat.add_succ_r. }
  rewrite H. now rewrite Nat.add_0_r.
Qed.

Lemma py_range_split (a b c : Z) :
  0 <= a <= b -> b <= c -> py_range a c = py_range a b ++ py_range b c.
Proof.
  intros Hab Hbc. rewrite !py_range_nat by lia.
  rewrite <- map_app. f_equal.
  replace (Z.to_nat (c - a)) with (Z.to_nat (b - a) + Z.to_nat (c - b))%nat by lia.
  rewrite seq_app. do 2 f_equal. lia.
Qed.

Lemma py_range_bounds (a c i : Z) : In i (py_range a c) -> a <= i < c.
Proof.
  unfold py_range. intros H. apply in_map_iff in H.
  destruct H as (k & <- & Hk). apply in_seq in Hk. lia.
Qed.

Lemma unet2_returns {Tensor : Type} (call : Layer -> list Tensor -> result Tensor)
    (x : Tensor) :
  library_returns call -> exists y, unet2 call x = Ok y.
Proof.
  intros Hlib. destruct (unet2 call x) as [y|e] eqn:H; [now exists y|].
  destruct (unet2_raised call x e H) as (layer & inbound & Hraise).
  destruct (Hlib layer inbound) as [t Ht]. congruence.
Qed.

Lemma inputs_raised {Tensor : Type} (call : Layer -> list Tensor -> result Tensor)
    (s : Settings) (e : exn) :
  inputs call s = Raised e -> library_raised call e.
Proof.
  intros H. unfold inputs, input_layers in H.
  destruct (main_input call s) as [main|e'] eqn:Hmain; simpl in H.
  - destruct (input_solar s); simpl in H; [|discriminate].
    destruct (solar_inputs call s) as [solar|e'] eqn:Hs; simpl in H; [discriminate|].
    injection H as <-. eapply solar_inputs_raised; eassumption.
  - injection H as <-. now exists (Input (cs s) "main_input"), [].
Qed.

(** What the notebook passes to [complete_model]: the main input alone
    without [input_solar], and with it the main input followed by
    [integration_steps - 1] solar inputs. *)
Lemma inputs_made {Tensor : Type} (call : Layer -> list Tensor -> result Tensor)
    (s : Settings) (ins : PyArg Tensor) :
  inputs call s = Ok ins ->
  (input_solar s = false /\ exists main, ins = Single main)
  \/ (input_solar s = true
      /\ exists main solar,
           ins = Sequence (main :: solar)
           /\ List.length solar = Z.to_nat (integration_steps s - 1)).
Proof.
  intros H. unfold inputs, input_layers in H.
  destruct (main_input call s) as [main|e] eqn:Hmain; simpl in H; [|discriminate].
  destruct (input_solar s) eqn:Hsolar; simpl in H.
  - destruct (solar_inputs call s) as [solar|e] eqn:Hs; simpl in H; [|discriminate].
    injection H as <-. right. split; [reflexivity|]. exists main, solar.
    split; [reflexivity|].
    apply list_comp_length in Hs. now rewrite Hs, py_range_length.
  - injection H as <-. left. split; [reflexivity|]. now exists main.
Qed.

Lemma input_solar_steps (s : Settings) : input_solar s = true -> 1 < integration_steps s.
Proof.
  unfold input_solar. intros H. apply andb_prop in H. destruct H as [H _].
  now apply Z.ltb_lt.
Qed.

Lemma inputs_well_formed {Tensor : Type} (call : Layer -> list Tensor -> result Tensor)
    (s : Settings) (ins : PyArg Tensor) :
  inputs call s = Ok ins -> well_formed s ins.
Proof.
  intros H. destruct (inputs_made call s ins H)
    as [(Hsolar & main & ->)|(Hsolar & main & solar & -> & Hlen)]; simpl; [exact I|].
  rewrite Hsolar. simpl. apply input_solar_steps in Hsolar. lia.
Qed.

Lemma complete_model_raised_single {Tensor : Type}
    (call : Layer -> list Tensor -> result Tensor) (s : Settings) (x : Tensor) (e : exn) :
  complete_model call s (Single x) = Raised e -> library_raised call e.
Proof.
  intros H. destruct (Z_lt_le_dec (integration_steps s) 1) as [Hsmall|Hn].
  - unfold complete_model in H. simpl in H.
    assert (Hempty : py_range 1 (integration_steps s) = []).
    { apply length_zero_iff_nil. rewrite py_range_length. lia. }
    rewrite Hempty in H. simpl in H.
    destruct (unet2 call x) as [y|e'] eqn:Hy; simpl in H; [discriminate|].
    injection H as <-. eapply unet2_raised; eassumption.
  - pose proof (complete_model_run call s (Single x) Hn I) as Hrun.
    now rewrite H in Hrun.
Qed.

(** X3.  The cell that builds the model never fails on its own inputs: the
    list it passes to [complete_model] always has the elements the loop
    reads, so [Model(inputs=inputs, outputs=complete_model(inputs))] gets
    its arguments whenever no layer call raises, an exception on the way is
    one a layer call raised (never [IndexError]), and the model is given
    [integration_steps] outputs (one when [integration_steps] is below 1),
    with as many inputs as outputs when [input_solar] holds and a single
    input otherwise. *)
Theorem model_construction_fails_only_in_the_library {Tensor : Type}
    (call : Layer -> list Tensor -> result Tensor) (s : Settings) :
  (forall e, model_arguments call s = Raised e -> library_raised call e)
  /\ (library_returns call -> exists ins outs, model_arguments call s = Ok (ins, outs))
  /\ (forall ins outs, model_arguments call s = Ok (ins, outs) ->
        Z.of_nat (List.length outs) = Z.max 1 (integration_steps s)
        /\ (input_solar s = true -> number_of_inputs ins = List.length outs)
        /\ (input_solar s = false -> number_of_inputs ins = 1%nat)).
Proof.
  assert (Hraise : forall e, model_arguments call s = Raised e -> library_raised call e).
  { intros e H. unfold model_arguments in H.
    destruct (inputs call s) as [ins|e'] eqn:Hins; simpl in H.
    - destruct (complete_model call s ins) as [outs|e'] eqn:Hout; simpl in H;
        [discriminate|]. injection H as <-.
      destruct (Z_lt_le_dec (integration_steps s) 1) as [Hsmall|Hn].
      + destruct (inputs_made call s ins Hins)
          as [(_ & main & ->)|(Hsolar & _)].
        * eapply complete_model_raised_single; eassumption.
        * apply input_solar_steps in Hsolar. lia.
      + pose proof (complete_model_run call s ins Hn
                      (inputs_well_formed call s ins Hins)) as Hrun.
        now rewrite Hout in Hrun.
    - injection H as <-. eapply inputs_raised; eassumption. }
  split; [exact Hraise|]. split.
  - intros Hlib. destruct (model_arguments call s) as [[ins outs]|e] eqn:H.
    + now exists ins, outs.
    + destruct (Hraise e eq_refl) as (layer & inbound & Hcall).
      destruct (Hlib layer inbound) as [t Ht]. congruence.
  - intros ins outs H. unfold model_arguments in H.
    apply bind_ok in H. destruct H as (ins' & Hins & H).
    apply bind_ok in H. destruct H as (outs' & Hout & H).
    injection H as <- <-.
    pose proof (complete_model_length call s ins' outs' Hout) as Hlen.
    split; [exact Hlen|].
    destruct (inputs_made call s ins' Hins)
      as [(Hsolar & main & ->)|(Hsolar & main & solar & -> & Hsol)].
    + split; [congruence | reflexivity].
    + split; [|congruence]. intros _.
      apply input_solar_steps in Hsolar. simpl. lia.
Qed.

Lemma model_construction_fails_only_in_the_library_witness :
  exists ins outs,
    model_arguments keras tutorial = Ok (ins, outs)
    /\ number_of_inputs ins = List.length outs.
Proof.
  destruct (proj1 (proj2 (model_construction_fails_only_in_the_library keras tutorial)))
    as (ins & outs & H).
  - intros layer inbound. now exists (Node layer inbound).
  - exists ins, outs. split; [exact H|].
    now apply (proj2 (proj2 (model_construction_fails_only_in_the_library keras tutorial))
                 ins outs H).
Defined.

Lemma py_getitem_firstn {A : Type} (l1 l2 : list A) (k : nat) (i : Z) :
  0 <= i -> (Z.to_nat i < k)%nat ->
  firstn k l1 = firstn k l2 -> py_getitem l1 i = py_getitem l2 i.
Proof.
  intros Hi Hk Hsame. rewrite !py_getitem_nonneg by assumption.
  assert (Hnth : nth_error l1 (Z.to_nat i) = nth_error l2 (Z.to_nat i)).
  { pose proof (nth_error_firstn k l1 (Z.to_nat i)) as H1.
    pose proof (nth_error_firstn k l2 (Z.to_nat i)) as H2.
    destruct (Nat.ltb_spec (Z.to_nat i) k); [|lia]. congruence. }
  now rewrite Hnth.
Qed.

(** X4.  The elements [complete_model] reads are needed: for
    [integration_steps >= 1] and a library whose calls all return, an input
    without them (an empty list, or with [input_solar] a list shorter than
    [integration_steps]) makes [complete_model] raise [IndexError]. *)
Theorem complete_model_needs_its_elements {Tensor : Type}
    (call : Layer -> list Tensor -> result Tensor) (s : Settings) (x_in : PyArg Tensor) :
  library_returns call ->
  1 <= integration_steps s ->
  ~ well_formed s x_in ->
  complete_model call s x_in = Raised IndexError.
Proof.
  intros Hlib Hn Hbad. destruct x_in as [t|ts]; [now destruct Hbad|].
  destruct ts as [|t ts']; [reflexivity|].
  set (ts := t :: ts') in *.
  assert (Hsolar : input_solar s = true).
  { destruct (input_solar s) eqn:E; [reflexivity|].
    exfalso. apply Hbad. simpl. rewrite E. subst ts. simpl. lia. }
  assert (Hshort : Z.of_nat (List.length ts) < integration_steps s).
  { destruct (Z_lt_le_dec (Z.of_nat (List.length ts)) (integration_steps s)) as [H|H];
      [exact H|]. exfalso. apply Hbad. simpl. now rewrite Hsolar. }
  assert (Hlen1 : (1 <= List.length ts)%nat) by (subst ts; simpl; lia).
  unfold complete_model. cbn [globals cnn_model_name String.eqb Ascii.eqb Bool.eqb bind].
  change (first_input (Sequence ts)) with (py_getitem ts 0).
  replace (py_getitem ts 0) with (Ok t) by (subst ts; reflexivity). cbn [bind].
  destruct (unet2_returns call t Hlib) as [y Hy]. rewrite Hy. cbn [bind].
  change (@nil Tensor ++ [y]) with [y].
  rewrite (py_range_split 1 (Z.of_nat (List.length ts)) (integration_steps s)) by lia.
  rewrite for_each_app.
  (* the passes that find their insolation *)
  rewrite (py_range_steps (Z.of_nat (List.length ts))).
  pose proof (integration_loop call s (Sequence ts)
                (Z.to_nat (Z.of_nat (List.length ts) - 1)) 0 [y] eq_refl) as Hloop.
  destruct (for_each (map Z.of_nat (seq 1 (Z.to_nat (Z.of_nat (List.length ts) - 1))))
              (integration_step call s (Sequence ts) (unet2 call)) [y])
    as [outputs|e].
  - destruct Hloop as (Hlen & _ & _).
    + intros k Hk. lia.
    + intros j Hj _. destruct (py_getitem_in_range ts (Z.of_nat j)) as [a [Ha _]]; [lia|].
      now exists a.
    + (* the pass whose insolation is missing *)
      cbn [bind].
      rewrite (py_range_split (Z.of_nat (List.length ts)) (Z.of_nat (List.length ts) + 1)
                 (integration_steps s)) by lia.
      rewrite for_each_app.
      assert (Hone : py_range (Z.of_nat (List.length ts)) (Z.of_nat (List.length ts) + 1)
                     = [Z.of_nat (List.length ts)]).
      { unfold py_range.
        replace (Z.of_nat (List.length ts) + 1 - Z.of_nat (List.length ts)) with 1 by lia.
        change (Z.to_nat 1) with 1%nat. cbn [seq map]. f_equal. }
      rewrite Hone. cbn [for_each].
      assert (Hstep : integration_step call s (Sequence ts) (unet2 call) outputs
                        (Z.of_nat (List.length ts)) = Raised IndexError).
      { unfold integration_step.
        destruct (py_getitem_in_range outputs (Z.of_nat (List.length ts) - 1))
          as [prev [Hprev _]]; [lia|].
        rewrite Hprev. cbn [bind]. unfold next_input.
        cbn [is_sequence]. rewrite Hsolar. cbn [andb].
        destruct (Hlib (Reshape (removelast (cs s) ++ [io_time_steps s; -1])) [prev])
          as [r Hr]. rewrite Hr. cbn [bind arg_getitem].
        rewrite py_getitem_nonneg by lia. rewrite Nat2Z.id.
        replace (nth_error ts (List.length ts)) with (@None Tensor)
          by (symmetry; apply nth_error_None; lia).
        reflexivity. }
      rewrite Hstep. reflexivity.
  - exfalso. destruct Hloop as (layer & inbound & Hraise).
    + intros k Hk. lia.
    + intros j Hj _. destruct (py_getitem_in_range ts (Z.of_nat j)) as [a [Ha _]]; [lia|].
      now exists a.
    + destruct (Hlib layer inbound) as [r Hr]. congruence.
Qed.

(** With the notebook's settings, the main input without its solar input. *)
Lemma complete_model_needs_its_elements_witness :
  complete_model keras tutorial (Sequence [main_placeholder]) = Raised IndexError.
Proof.
  apply complete_model_needs_its_elements.
  - intros layer inbound. now exists (Node layer inbound).
  - simpl. lia.
  - simpl. lia.
Defined.

Lemma elements_read_positive (s : Settings) : (1 <= elements_read s)%nat.
Proof.
  unfold elements_read. destruct (input_solar s) eqn:H; [|lia].
  apply input_solar_steps in H. lia.
Qed.

(** X5.  Of a list [x_in], [complete_model] reads the first element and,
    with [input_solar], the elements up to [integration_steps - 1], and no
    other: two lists that agree on these give the same result, exceptions
    included. *)
Theorem complete_model_reads_a_prefix {Tensor : Type}
    (call : Layer -> list Tensor -> result Tensor) (s : Settings) (ts1 ts2 : list Tensor) :
  firstn (elements_read s) ts1 = firstn (elements_read s) ts2 ->
  complete_model call s (Sequence ts1) = complete_model call s (Sequence ts2).
Proof.
  intros Hsame. unfold complete_model.
  destruct (globals call cnn_model_name) as [model_function|e]; [|reflexivity].
  cbn [bind first_input].
  rewrite (py_getitem_firstn ts1 ts2 (elements_read s) 0 ltac:(lia)
             ltac:(pose proof (elements_read_positive s); simpl; lia) Hsame).
  destruct (py_getitem ts2 0) as [xi|e]; [|reflexivity]. cbn [bind].
  destruct (model_function xi) as [y|e]; [|reflexivity]. cbn [bind].
  apply for_each_ext. intros outputs step Hstep.
  apply py_range_bounds in Hstep.
  unfold integration_step, next_input. cbn [is_sequence andb arg_getitem].
  destruct (py_getitem outputs (step - 1)) as [xo|e]; [|reflexivity]. cbn [bind].
  destruct (input_solar s) eqn:Hsolar; [|reflexivity].
  assert (Hread : (Z.to_nat step < elements_read s)%nat)
    by (unfold elements_read; rewrite Hsolar; lia).
  now rewrite (py_getitem_firstn ts1 ts2 (elements_read s) step ltac:(lia) Hread Hsame).
Qed.

(** A third element is not read when there are two steps. *)
Lemma complete_model_reads_a_prefix_witness :
  complete_model keras tutorial (Sequence [main_placeholder; solar_placeholder])
  = complete_model keras tutorial
      (Sequence [main_placeholder; solar_placeholder; main_placeholder]).
Proof.
  apply complete_model_reads_a_prefix. reflexivity.
Defined.

(** X6.  Asking for more integration steps leaves the earlier outputs as
    they are: for [1 <= integration_steps <= n], when [complete_model]
    returns with [integration_steps] steps and with [n] steps on the same
    input, the longer list starts with the shorter one and has
    [n - integration_steps] outputs more. *)
Theorem more_steps_keep_the_outputs {Tensor : Type}
    (call : Layer -> list Tensor -> result Tensor) (s : Settings) (n : Z)
    (x_in : PyArg Tensor) (outputs outputs' : list Tensor) :
  1 <= integration_steps s <= n ->
  complete_model call s x_in = Ok outputs ->
  complete_model call (with_steps n s) x_in = Ok outputs' ->
  exists more,
    outputs' = outputs ++ more
    /\ Z.of_nat (List.length more) = n - integration_steps s.
Proof.
  intros Hn H H'. unfold complete_model in H, H'.
  cbn [integration_steps with_steps] in H'.
  destruct (globals call cnn_model_name) as [model_function|e]; [|discriminate].
  cbn [bind] in H, H'.
  destruct (first_input x_in) as [xi|e]; [|discriminate]. cbn [bind] in H, H'.
  destruct (model_function xi) as [y|e]; [|discriminate]. cbn [bind] in H, H'.
  rewrite (py_range_split 1 (integration_steps s) n) in H' by lia.
  rewrite for_each_app in H'.
  rewrite (for_each_ext (integration_step call (with_steps n s) x_in model_function)
             (integration_step call s x_in model_function)) in H'.
  - rewrite H in H'. cbn [bind] in H'.
    apply for_each_extends in H'. destruct H' as (more & -> & Hlen).
    exists more. split; [reflexivity|]. rewrite Hlen, py_range_length. lia.
  - intros outs step Hstep. apply py_range_bounds in Hstep.
    unfold integration_step, next_input, input_solar.
    cbn [integration_steps add_solar cs io_time_steps with_steps].
    destruct (Z.ltb_spec 1 n); [|lia].
    destruct (Z.ltb_spec 1 (integration_steps s)); [|lia].
    reflexivity.
Qed.

Lemma more_steps_keep_the_outputs_witness :
  exists outputs more,
    complete_model keras one_step_only (Sequence [main_placeholder; solar_placeholder])
      = Ok outputs
    /\ complete_model keras tutorial (Sequence [main_placeholder; solar_placeholder])
      = Ok (outputs ++ more)
    /\ List.length more = 1%nat.
Proof.
  destruct (complete_model keras one_step_only
              (Sequence [main_placeholder; solar_placeholder])) as [outputs|e] eqn:H1;
    [|vm_compute in H1; discriminate H1].
  destruct (complete_model keras tutorial
              (Sequence [main_placeholder; solar_placeholder])) as [outputs'|e] eqn:H2;
    [|vm_compute in H2; discriminate H2].
  destruct (more_steps_keep_the_outputs keras one_step_only 2
              (Sequence [main_placeholder; solar_placeholder]) outputs outputs')
    as (more & -> & Hlen).
  - simpl. lia.
  - exact H1.
  - exact H2.
  - exists outputs, more. repeat split. simpl in Hlen. lia.
Defined.

(** ** The names of the inputs *)

Lemma percent_d_inj (i j : Z) : percent_d i = percent_d j -> i = j.
Proof.
  unfold percent_d. intros H. apply DecimalZ.to_int_inj.
  assert (Hsome : Some (Z.to_int i) = Some (Z.to_int j)).
  { rewrite <- (NilEmpty.isi (Z.to_int i)), <- (NilEmpty.isi (Z.to_int j)). now rewrite H. }
  now injection Hsome.
Qed.

Lemma solar_name_inj (i j : Z) : solar_name i = solar_name j -> i = j.
Proof.
  unfold solar_name. cbn [String.append]. intros H. injection H as H.
  now apply percent_d_inj.
Qed.

Lemma py_range_NoDup (a c : Z) : NoDup (py_range a c).
Proof.
  unfold py_range. apply Finite.Injective_map_NoDup; [|apply seq_NoDup].
  intros j k H. lia.
Qed.

(** X7.  The names in [input_names] are pairwise different, whatever
    [integration_steps] is: no two inputs of the data generator share a
    name. *)
Theorem input_names_are_distinct (s : Settings) : NoDup (input_names s).
Proof.
  change (input_names s) with ("main_input" :: map solar_name (py_range 1 (integration_steps s))).
  constructor.
  - intros Hin. apply in_map_iff in Hin. destruct Hin as (d & Hd & _).
    unfold solar_name in Hd. cbn [String.append] in Hd. discriminate Hd.
  - apply Finite.Injective_map_NoDup; [|apply py_range_NoDup].
    intros i j. apply solar_name_inj.
Qed.

Lemma list_comp_keras (f : Z -> Layer) (items : list Z) :
  list_comp (fun d => keras (f d) []) items = Ok (map (fun d => Node (f d) []) items).
Proof.
  induction items as [|d items IH]; [reflexivity|].
  cbn [list_comp keras bind map]. rewrite IH. reflexivity.
Qed.

(** X8.  The placeholders given to [Model] carry the names of
    [input_names], in the same order: with [input_solar] they are named by
    the whole list, and otherwise the single placeholder is named by its
    first element, ['main_input']. *)
Theorem model_inputs_are_named (s : Settings) (ins : PyArg KerasTensor) :
  inputs keras s = Ok ins ->
  map input_name (as_list ins)
  = firstn (number_of_inputs ins) (map Some (input_names s))
  /\ (input_solar s = true -> map input_name (as_list ins) = map Some (input_names s)).
Proof.
  intros H. unfold inputs, input_layers, main_input, solar_inputs in H.
  rewrite list_comp_keras in H. cbn [keras bind] in H.
  assert (Hall : input_solar s = true ->
                 ins = Sequence (Node (Input (cs s) "main_input") []
                                 :: map (fun d => Node (Input (insolation_shape s) (solar_name d)) [])
                                      (py_range 1 (integration_steps s)))).
  { intros Hsolar. rewrite Hsolar in H. cbn [bind negb] in H. now injection H as <-. }
  assert (Hnames : input_solar s = true -> map input_name (as_list ins) = map Some (input_names s)).
  { intros Hsolar. rewrite (Hall Hsolar). cbn [as_list map input_name].
    unfold input_names. cbn [List.app map]. f_equal. now rewrite !map_map. }
  split; [|exact Hnames].
  destruct (input_solar s) eqn:Hsolar.
  - rewrite (Hnames eq_refl). rewrite (Hall eq_refl). cbn [number_of_inputs].
    rewrite firstn_all2; [reflexivity|].
    rewrite length_map. unfold input_names. cbn [List.app List.length].
    rewrite !length_map. lia.
  - cbn [bind negb] in H. injection H as <-. reflexivity.
Qed.

(** The two placeholders of the notebook's settings. *)
Lemma model_inputs_are_named_witness :
  map input_name [main_placeholder; solar_placeholder] = [Some "main_input"; Some "solar_1"].
Proof.
  exact (proj1 (model_inputs_are_named tutorial
                  (Sequence [main_placeholder; solar_placeholder]) eq_refl)).
Defined.

(** ** The filters at the skip connections *)

(** X9.  With the notebook's model name, skip connections are on, and at
    each of the two [concatenate] calls of [unet2] the two tensors come out
    of convolutions with the same number of filters, for every
    [base_filter_number]: together they have as many as the first of the
    two convolutions is given when skip connections are off. *)
Theorem concatenated_filters (base_filter_number : Z) (g : KerasTensor) :
  unet2 keras main_placeholder = Ok g ->
  uses_skip_connections cnn_model_name = true
  /\ List.length (concatenated g) = 2%nat
  /\ forall p q, In (p, q) (concatenated g) ->
       exists lp lq f,
         p = Some lp /\ q = Some lq
         /\ filters base_filter_number (uses_skip_connections cnn_model_name) lp = Some f
         /\ filters base_filter_number (uses_skip_connections cnn_model_name) lq = Some f
         /\ filters base_filter_number false lp = Some (f + f).
Proof.
  intros H.
  assert (Hpairs : concatenated g
                   = [(Some conv_2d_6, Some conv_2d_1_2); (Some conv_2d_5, Some conv_2d_2_2)]).
  { vm_compute in H. injection H as <-. vm_compute. reflexivity. }
  assert (Hskip : uses_skip_connections cnn_model_name = true) by (vm_compute; reflexivity).
  rewrite Hpairs, Hskip. split; [reflexivity|]. split; [reflexivity|].
  intros p q [Hin|[Hin|[]]]; injection Hin as <- <-.
  - exists conv_2d_6, conv_2d_1_2, base_filter_number. cbn [filters].
    repeat split. f_equal. lia.
  - exists conv_2d_5, conv_2d_2_2, (base_filter_number * 2). cbn [filters].
    repeat split. f_equal. lia.
Qed.

Lemma concatenated_filters_witness :
  exists g,
    unet2 keras main_placeholder = Ok g
    /\ forall p q, In (p, q) (concatenated g) ->
         exists lp lq f,
           p = Some lp /\ q = Some lq
           /\ filters 32 (uses_skip_connections cnn_model_name) lp = Some f
           /\ filters 32 (uses_skip_connections cnn_model_name) lq = Some f
           /\ filters 32 false lp = Some (f + f).
Proof.
  eexists. split; [reflexivity|].
  exact (proj2 (proj2 (concatenated_filters 32 _ eq_refl))).
Defined.

(** ** The model names that turn skip connections on *)

Lemma lower_append (a b : string) :
  lower (String.append a b) = String.append (lower a) (lower b).
Proof.
  induction a as [|c a IH]; [reflexivity|]. cbn [String.append lower]. now rewrite IH.
Qed.

Lemma lower_split (name x y : string) :
  lower name = String.append x y ->
  exists n1 n2, name = String.append n1 n2 /\ lower n1 = x /\ lower n2 = y.
Proof.
  revert name. induction x as [|c x IH]; intros name H.
  - exists EmptyString, name. repeat split. exact H.
  - destruct name as [|d name]; [discriminate H|].
    cbn [lower String.append] in H. injection H as Hc H.
    destruct (IH name H) as (n1 & n2 & -> & H1 & H2).
    exists (String d n1), n2. repeat split; [|exact H2].
    cbn [lower]. now rewrite Hc, H1.
Qed.

Lemma prefix_append (sub rest : string) : String.prefix sub (String.append sub rest) = true.
Proof.
  induction sub as [|c sub IH]; [now destruct rest|].
  cbn [String.append String.prefix]. destruct (ascii_dec c c) as [_|Hc]; [exact IH|].
  now destruct Hc.
Qed.

Lemma prefix_split (sub s : string) :
  String.prefix sub s = true -> exists rest, s = String.append sub rest.
Proof.
  revert s. induction sub as [|c sub IH]; intros s H.
  - now exists s.
  - destruct s as [|d s]; [discriminate H|]. cbn [String.prefix] in H.
    destruct (ascii_dec c d) as [->|_]; [|discriminate H].
    destruct (IH s H) as [rest ->]. now exists rest.
Qed.

Lemma py_in_append (sub a b : string) :
  py_in sub (String.append a (String.append sub b)) = true.
Proof.
  unfold py_in. induction a as [|c a IH].
  - cbn [String.append]. pose proof (prefix_append sub b) as Hp.
    destruct (String.append sub b) as [|d rest] eqn:E.
    + destruct sub; [reflexivity|discriminate E].
    + cbn [String.index]. now rewrite Hp.
  - cbn [String.append String.index].
    destruct (String.prefix sub (String c (String.append a (String.append sub b))));
      [reflexivity|].
    destruct (String.index 0 sub (String.append a (String.append sub b)));
      [reflexivity|discriminate IH].
Qed.

Lemma py_in_split (sub s : string) :
  py_in sub s = true -> exists a b, s = String.append a (String.append sub b).
Proof.
  unfold py_in. induction s as [|c s IH]; intros H.
  - destruct sub; [|discriminate H]. now exists EmptyString, EmptyString.
  - cbn [String.index] in H.
    destruct (String.prefix sub (String c s)) eqn:Hp.
    + destruct (prefix_split _ _ Hp) as [rest Hrest]. now exists EmptyString, rest.
    + destruct (String.index 0 sub s); [|discriminate H].
      destruct (IH eq_refl) as (a & b & ->). now exists (String c a), b.
Qed.

(** X10.  [skip_connections = 'unet' in cnn_model_name.lower()] is true for
    exactly the ASCII model names that hold the letters of ['unet'] in a
    row, in upper or lower case: a name is one of them if and only if it
    splits into a part before, a part that [lower] turns into ['unet'], and
    a part after. *)
Theorem skip_connections_by_name (name : string) :
  uses_skip_connections name = true
  <-> exists a w b,
        name = String.append a (String.append w b) /\ lower w = "unet".
Proof.
  unfold uses_skip_connections. split.
  - intros H. apply py_in_split in H. destruct H as (x & y & H).
    apply lower_split in H. destruct H as (a & rest & -> & _ & H).
    apply lower_split in H. destruct H as (w & b & -> & Hw & _).
    now exists a, w, b.
  - intros (a & w & b & -> & Hw).
    rewrite !lower_append, Hw. apply py_in_append.
Qed.

(** * Values the notebooks build and do not use *)

(** X11.  Of the twenty convolution layers the training notebook builds,
    nine are assigned and named nowhere else, so no function applies them:
    the third of each group and all of [conv_2d_3] and [conv_2d_4]. *)
Theorem convolutions_never_applied :
  filter (String.prefix "conv_2d") (never_read training_notebook)
  = ["conv_2d_1_3"; "conv_2d_2_3"; "conv_2d_3"; "conv_2d_3_2"; "conv_2d_4"; "conv_2d_4_2";
     "conv_2d_5_3"; "conv_2d_6_3"; "conv_2d_7_3"]
  /\ List.length (filter (String.prefix "conv_2d") (nodup string_dec (stores training_notebook)))
     = 20%nat.
Proof.
  split; vm_compute; reflexivity.
Qed.

(** X12.  The [TensorBoard] callback is built and not used: the name
    [tensorboard] is assigned and named nowhere else, and the [callbacks]
    of [dlwp.fit_generator] are [history], [early] and a
    [GeneratorEpochEnd].  It is the only such name of the training notebook
    besides the nine convolutions, and [dates] is the only one of the
    download notebook. *)
Theorem tensorboard_is_not_a_callback :
  filter (fun name => negb (String.prefix "conv_2d" name)) (never_read training_notebook)
  = ["tensorboard"]
  /\ keyword_of training_notebook ["dlwp"; "fit_generator"] "callbacks"
     = Some (ListE [Name "history"; Name "early";
                    Call (Name "GeneratorEpochEnd") [Name "generator"] []])
  /\ never_read download_notebook = ["dates"].
Proof.
  repeat split; vm_compute; reflexivity.
Qed.

(** * The files the download notebook names *)

Lemma append_length (a b : string) :
  String.length (String.append a b) = (String.length a + String.length b)%nat.
Proof.
  induction a as [|c a IH]; [reflexivity|]. cbn [String.append String.length]. now rewrite IH.
Qed.

Lemma append_assoc (a b c : string) :
  String.append (String.append a b) c = String.append a (String.append b c).
Proof.
  induction a as [|d a IH]; [reflexivity|]. cbn [String.append]. now rewrite IH.
Qed.

(** X13.  For every [data_directory], the file [to_netcdf] is told to
    write is not [processed_file], the [predictor_file] of the
    [Preprocessor] that is closed only afterwards: its name is
    [processed_file] with eight characters more, and both names begin with
    [data_directory]. *)
Theorem nocoord_file_is_another_file (data_directory : string) :
  nocoord_file data_directory <> processed_file data_directory
  /\ String.prefix (processed_file data_directory) (nocoord_file data_directory) = true
  /\ String.prefix data_directory (processed_file data_directory) = true
  /\ String.prefix data_directory (nocoord_file data_directory) = true.
Proof.
  unfold nocoord_file, processed_file. repeat split.
  - intros H. apply (f_equal String.length) in H. rewrite !append_length in H.
    cbn [String.length] in H. lia.
  - apply prefix_append.
  - apply prefix_append.
  - rewrite append_assoc. apply prefix_append.
Qed.

(** * Names and the order of the cells *)

(** X14.  Read from the first cell to the last, each notebook binds every
    name before a statement reads it: whatever a cell reads is built in, or
    an import, an assignment, a [def] or a loop target before it has bound
    it.  So the training notebook takes no name from the download notebook. *)
Theorem names_are_bound_before_they_are_read :
  unbound_reads download_notebook = []
  /\ unbound_reads training_notebook = [].
Proof.
  split; vm_compute; reflexivity.
Qed.


(** * The layer every output comes out of *)




